(** * utils_finance: returns of a price series, and the stock fetcher

    A shallow embedding of [src/utils_finance.py].  The Python module is a thin
    layer over numpy, pandas, pandas_datareader, seaborn and matplotlib, so the
    development has three layers:

    - [Float64]: numpy's [float64], as the IEEE 754 binary64 operations of the
      Standard Library's [SpecFloat];
    - [Pandas], [DataReader], [Plotting]: the library calls the module makes,
      over an explicit store of array buffers (a [Series] taken out of a
      [DataFrame] shares its buffer), with the log lines, the requests and
      the figures shown kept in a trace;
    - [UtilsFinance]: [download_stock], [compute_returns] and
      [plot_cummulative_returns], statement by statement.

    The library calls behave as in pandas 0.25 to 2.x: an integer key on a
    Series indexed by dates is a position, [pct_change] pads missing values
    before it divides, and [cumprod] skips them.  The Close column holds
    [float64] values, as the provider delivers them.  [plot_candlestick] and
    the plotly figures it shows come after these, in [Plotly]. *)

From Stdlib Require Import ZArith QArith Qabs Lia.
From Stdlib Require Import Floats.SpecFloat.
From stdpp Require Import base option list strings.

(** stdpp is loaded last, so [x ≤ y], [x < y] and [length] are about [nat]. *)
#[local] Open Scope string_scope.
#[local] Open Scope list_scope.
#[local] Open Scope nat_scope.

(* ===================================================================== *)
(** ** numpy float64 *)
(* ===================================================================== *)

Module Float64.

Definition float64 : Type := spec_float.

Definition prec : Z := 53.
Definition emax : Z := 1024.

Definition add : float64 -> float64 -> float64 := SFadd prec emax.
Definition sub : float64 -> float64 -> float64 := SFsub prec emax.
Definition mul : float64 -> float64 -> float64 := SFmul prec emax.
Definition div : float64 -> float64 -> float64 := SFdiv prec emax.

(** The float64 nearest to an integer, as numpy converts a Python int. *)
Definition of_Z (z : Z) : float64 := binary_normalize prec emax z 0 false.

Definition nan : float64 := S754_nan.
Definition zero : float64 := S754_zero false.
Definition one : float64 := of_Z 1.
Definition inf : float64 := S754_infinity false.
Definition neg_inf : float64 := S754_infinity true.

Definition isnan (x : float64) : bool :=
  match x with S754_nan => true | _ => false end.

Definition isfinite (x : float64) : bool :=
  match x with S754_zero _ | S754_finite _ _ _ => true | _ => false end.

Definition iszero (x : float64) : bool :=
  match x with S754_zero _ => true | _ => false end.

(** [x > 0], infinity included. *)
Definition ispositive (x : float64) : bool :=
  match x with
  | S754_finite false _ _ | S754_infinity false => true
  | _ => false
  end.

(** The exact rational value of a finite float. *)
Definition to_Q (x : float64) : option Q :=
  match x with
  | S754_zero _ => Some 0%Q
  | S754_finite s m e =>
      let v := match e with
               | Zneg p => Qmake (Zpos m) (2 ^ p)%positive
               | _ => inject_Z (Zpos m * 2 ^ e)
               end in
      Some (if s then Qopp v else v)
  | _ => None
  end.

(** [x] is finite and within [tol] of the rational [q]. *)
Definition close_to (tol q : Q) (x : float64) : bool :=
  match to_Q x with
  | Some v => Qle_bool (Qabs (v - q)) tol
  | None => false
  end.

Section Log.
(** [np.log] on a positive finite argument is the C library's [log]; its
    rounding is the platform's, so that part is a parameter, given the
    mantissa and exponent of the argument.  On every other argument the
    result is fixed by IEEE 754 and C99 (Annex F): a zero of either sign
    gives -inf, a negative argument or a NaN gives NaN, +inf gives +inf.
    With numpy's default error state these cases warn and do not raise. *)
Variable libm_log : positive -> Z -> float64.

Definition log (x : float64) : float64 :=
  match x with
  | S754_nan => nan
  | S754_zero _ => neg_inf
  | S754_infinity false => inf
  | S754_infinity true => nan
  | S754_finite true _ _ => nan
  | S754_finite false m e => libm_log m e
  end.
End Log.

#[global] Arguments one : simpl never.
#[global] Arguments log : simpl never.

End Float64.

Import Float64.

(* ===================================================================== *)
(** ** The part of pandas, numpy, seaborn and matplotlib the module calls *)
(* ===================================================================== *)

Module Pandas.

(** Trading dates, as day numbers. *)
Definition date : Type := Z.

(** Array buffers live in a store; a location is a position in it. *)
Definition loc : Type := nat.
Abbreviation heap := (list (list float64)).

(** A Series: an index and a reference to its values. *)
Record Series := mkSeries { s_index : list date; s_data : loc }.

(** A column label has one string per level (a plain label has one). *)
Definition label : Type := list string.

(** A DataFrame: the row index and its name, the column labels in order,
    each with the buffer of its column, and the name of each level of the
    column labels. *)
Record DataFrame := mkDataFrame {
  df_index : list date;
  df_index_name : option string;
  df_columns : list (label * loc);
  df_columns_names : list (option string)
}.

(** A one-level index of labels, with its name. *)
Record Index := mkIndex { i_labels : list string; i_name : option string }.

(** What a matplotlib Axes holds, as far as the module sets it: the data of
    each line drawn on it, as given to the plotting call, the title with its
    weight, and the axis labels. *)
Record Axes := mkAxes {
  ax_lines : list (list date * list float64);
  ax_title : string;
  ax_title_weight : string;
  ax_xlabel : string;
  ax_ylabel : string
}.

(** Axes are objects too: a reference is a position in the world's list. *)
Definition axref : Type := nat.

(** The effects that leave the process. *)
Inductive event :=
| LogInfo (line : string)
| Request (symbols : list string) (date_start date_end : date)
| Shown (figures : list Axes).

(** The world: the buffers, the Axes objects, pyplot's current Axes and
    the trace. *)
Record world := mkWorld {
  w_heap : heap;
  w_axes : list Axes;
  w_current : option axref;
  w_trace : list event
}.

(** The exceptions; [DanglingRef] stands for a reference to no buffer, which
    no Python value is. *)
Inductive exn :=
| KeyError
| IndexError
| ValueError
| RemoteDataError
| DanglingRef.

(** A computation changes the world and returns a value or raises; the
    world survives an exception. *)
Definition M (A : Type) : Type := world -> world * (exn + A).

Definition ret {A} (a : A) : M A := fun w => (w, inr a).
Definition raise {A} (e : exn) : M A := fun w => (w, inl e).
Definition bind {A B} (m : M A) (k : A -> M B) : M B :=
  fun w => match m w with
           | (w', inr a) => k a w'
           | (w', inl e) => (w', inl e)
           end.

Declare Scope py_scope.
Delimit Scope py_scope with py.
Notation "'let*' x ':=' m 'in' k" := (bind m (fun x => k))
  (at level 10, x name, m at level 100, k at level 200) : py_scope.
Notation "m ';;' k" := (bind m (fun _ => k))
  (at level 100, k at level 200, right associativity) : py_scope.
#[local] Open Scope py_scope.

Definition set_heap (h : heap) (w : world) : world :=
  mkWorld h (w_axes w) (w_current w) (w_trace w).
Definition set_axes (a : list Axes) (c : option axref) (w : world) : world :=
  mkWorld (w_heap w) a c (w_trace w).
Definition emit (e : event) : M unit :=
  fun w => (mkWorld (w_heap w) (w_axes w) (w_current w) (w_trace w ++ [e]), inr tt).

(** *** The store *)

Definition alloc (v : list float64) : M loc :=
  fun w => (set_heap (w_heap w ++ [v]) w, inr (length (w_heap w))).

Definition load (l : loc) : M (list float64) :=
  fun w => match w_heap w !! l with
           | Some v => (w, inr v)
           | None => (w, inl DanglingRef)
           end.

(** [a[i] = x] on a numpy array: out of range raises. *)
Definition store (l : loc) (i : nat) (x : float64) : M unit :=
  fun w => match w_heap w !! l with
           | Some v =>
               if decide (i < length v)
               then (set_heap (<[l := <[i := x]> v]> (w_heap w)) w, inr tt)
               else (w, inl IndexError)
           | None => (w, inl DanglingRef)
           end.

(** *** Elementwise arithmetic on values *)

(** [shift(periods, fill_value)] for [periods >= 0]: the values move down by
    [periods] places, the first places are filled, the length is kept. *)
Definition shift_values (periods : nat) (fill : float64) (v : list float64)
  : list float64 :=
  take (length v) (replicate periods fill ++ v).

(** [fillna(method='pad')]: a NaN takes the last value before it that is
    not NaN; leading NaNs stay. *)
Fixpoint pad_from (last : float64) (v : list float64) : list float64 :=
  match v with
  | [] => []
  | x :: r => if isnan x then last :: pad_from last r else x :: pad_from x r
  end.
Definition pad (v : list float64) : list float64 := pad_from nan v.

(** [pct_change()] with its defaults [periods=1, fill_method='pad']:
    [data = fillna(method='pad'); data.div(data.shift(1)) - 1]. *)
Definition pct_change_values (v : list float64) : list float64 :=
  let data := pad v in
  zip_with (fun x y => sub (div x y) one) data (shift_values 1 nan data).

(** [np.cumprod]: the running product, starting from the first value. *)
Fixpoint running_product (acc : float64) (v : list float64) : list float64 :=
  match v with
  | [] => []
  | x :: r => let acc' := mul acc x in acc' :: running_product acc' r
  end.
Definition np_cumprod (v : list float64) : list float64 :=
  match v with
  | [] => []
  | x :: r => x :: running_product x r
  end.

(** [Series.cumprod()] with its default [skipna=True]: the NaNs are
    replaced by 1, [np.cumprod] runs, and the NaNs are put back. *)
Definition cumprod_values (v : list float64) : list float64 :=
  let vals := (fun x => if isnan x then one else x) <$> v in
  zip_with (fun x y => if isnan x then nan else y) v (np_cumprod vals).

(** *** Series and DataFrame operations *)

(** The buffer of the column with a given label (labels are distinct). *)
Fixpoint find_column (name : label) (cols : list (label * loc)) : option loc :=
  match cols with
  | [] => None
  | (n, l) :: r => if decide (n = name) then Some l else find_column name r
  end.

(** [df[name]]: the column as a Series on the frame's own buffer. *)
Definition DataFrame_getitem (df : DataFrame) (name : string) : M Series :=
  match find_column [name] (df_columns df) with
  | Some l => ret (mkSeries (df_index df) l)
  | None => raise KeyError
  end.

(** Every operation below returns a new Series on a new buffer. *)
Definition new_series (index : list date) (v : list float64) : M Series :=
  let* l := alloc v in ret (mkSeries index l).

Definition Series_shift (s : Series) (periods : nat) (fill_value : float64)
  : M Series :=
  let* v := load (s_data s) in
  new_series (s_index s) (shift_values periods fill_value v).

(** [a / b] for two Series on the same index: position by position. *)
Definition Series_truediv (a b : Series) : M Series :=
  let* va := load (s_data a) in
  let* vb := load (s_data b) in
  new_series (s_index a) (zip_with div va vb).

Definition Series_add_scalar (s : Series) (c : float64) : M Series :=
  let* v := load (s_data s) in
  new_series (s_index s) ((fun x => add x c) <$> v).

Definition Series_pct_change (s : Series) : M Series :=
  let* v := load (s_data s) in
  new_series (s_index s) (pct_change_values v).

Definition Series_cumprod (s : Series) : M Series :=
  let* v := load (s_data s) in
  new_series (s_index s) (cumprod_values v).

(** [s[i] = x] with an integer [i] on a Series indexed by dates: the key is
    a position, and the write goes to the Series' own buffer. *)
Definition Series_setitem (s : Series) (i : nat) (x : float64) : M unit :=
  store (s_data s) i x.

Section NumpyLog.
Variable libm_log : positive -> Z -> float64.

(** [np.log(s)]: a new Series, the logarithm of each value. *)
Definition np_log (s : Series) : M Series :=
  let* v := load (s_data s) in
  new_series (s_index s) (log libm_log <$> v).
End NumpyLog.

(** *** Column labels *)

(** [df.columns.get_level_values(level)]: the labels at one level, under the
    name of that level; column labels with too few levels raise. *)
Definition get_level_values (df : DataFrame) (level : nat) : M Index :=
  match mapM (fun l : label => l !! level) (fst <$> df_columns df) with
  | Some labels => ret (mkIndex labels (mjoin (df_columns_names df !! level)))
  | None => raise IndexError
  end.

(** A Python list used as an index: the labels, without a name. *)
Definition Index_of_list (labels : list string) : Index := mkIndex labels None.

(** [df.columns = index]: as many labels as columns, or it raises. *)
Definition set_columns (df : DataFrame) (index : Index) : M DataFrame :=
  if decide (length (i_labels index) = length (df_columns df))
  then ret (mkDataFrame (df_index df) (df_index_name df)
              (zip_with (fun n c => ([n], snd c)) (i_labels index) (df_columns df))
              [i_name index])
  else raise ValueError.

(** [df.columns.name = name], on one-level column labels. *)
Definition set_columns_name (df : DataFrame) (name : option string) : DataFrame :=
  mkDataFrame (df_index df) (df_index_name df) (df_columns df) [name].

(** [df.index.name = name] *)
Definition set_index_name (df : DataFrame) (name : option string) : DataFrame :=
  mkDataFrame (df_index df) name (df_columns df) (df_columns_names df).

(** The columns of [df[[name; ...]]], one after the other: each is looked up
    and its values are copied to a new buffer. *)
Fixpoint take_columns (cols : list (label * loc)) (names : list string)
  : M (list (label * loc)) :=
  match names with
  | [] => ret []
  | n :: r =>
      match find_column [n] cols with
      | Some l =>
          let* v := load l in
          let* l' := alloc v in
          let* rest := take_columns cols r in
          ret (([n], l') :: rest)
      | None => raise KeyError
      end
  end.

(** [df[names]] with a list of names: a new frame with these columns, in the
    order of the list. *)
Definition DataFrame_select (df : DataFrame) (names : list string) : M DataFrame :=
  let* cols := take_columns (df_columns df) names in
  ret (mkDataFrame (df_index df) (df_index_name df) cols (df_columns_names df)).

#[global] Arguments shift_values : simpl never.
#[global] Arguments pct_change_values : simpl never.
#[global] Arguments cumprod_values : simpl never.

End Pandas.

Import Pandas.
#[local] Open Scope py_scope.

(* ===================================================================== *)
(** ** pandas_datareader *)
(* ===================================================================== *)

Module DataReader.

(** What the remote provider answers: a table, not yet in the store. *)
Record Response := mkResponse {
  r_index : list date;
  r_columns : list (label * list float64)
}.

(** The provider is outside the program: a request is answered by a table
    or by an error. *)
Definition Provider : Type := list string -> date -> date -> exn + Response.

Fixpoint alloc_columns (cols : list (label * list float64)) : M (list (label * loc)) :=
  match cols with
  | [] => ret []
  | (n, v) :: r =>
      let* l := alloc v in
      let* rest := alloc_columns r in
      ret ((n, l) :: rest)
  end.

(** [pdr.get_data_yahoo(symbols, start, end)]: one request, then the answer
    as a DataFrame whose index is named [Date] and whose column labels have
    the levels [Attributes] and [Symbols]. *)
Definition get_data_yahoo (provider : Provider) (symbols : list string)
    (date_start date_end : date) : M DataFrame :=
  emit (Request symbols date_start date_end);;
  match provider symbols date_start date_end with
  | inl e => raise e
  | inr r =>
      let* cols := alloc_columns (r_columns r) in
      ret (mkDataFrame (r_index r) (Some "Date") cols
             [Some "Attributes"; Some "Symbols"])
  end.

End DataReader.

Import DataReader.

(* ===================================================================== *)
(** ** logging, seaborn and matplotlib *)
(* ===================================================================== *)

Module Plotting.

(** [logger.info(message)]: the handler writes one line. *)
Definition logger_info (message : string) : M unit := emit (LogInfo message).

Definition empty_axes : Axes := mkAxes [] "" "normal" "" "".

(** [plt.gca()]: the current Axes, a new one when there is none. *)
Definition gca : M axref :=
  fun w => match w_current w with
           | Some a => (w, inr a)
           | None =>
               let a := length (w_axes w) in
               (set_axes (w_axes w ++ [empty_axes]) (Some a) w, inr a)
           end.

Definition update_axes (a : axref) (f : Axes -> Axes) : M unit :=
  fun w => (set_axes (alter f a (w_axes w)) (w_current w) w, inr tt).

(** [sns.lineplot(x, y)]: draws the line on the current Axes and returns
    that Axes. *)
Definition sns_lineplot (x : list date) (y : Series) : M axref :=
  let* v := load (s_data y) in
  let* a := gca in
  update_axes a (fun ax =>
    mkAxes (ax_lines ax ++ [(x, v)]) (ax_title ax) (ax_title_weight ax)
           (ax_xlabel ax) (ax_ylabel ax));;
  ret a.

Definition Axes_set_title (a : axref) (title weight : string) : M unit :=
  update_axes a (fun ax =>
    mkAxes (ax_lines ax) title weight (ax_xlabel ax) (ax_ylabel ax)).

Definition Axes_set_xlabel (a : axref) (text : string) : M unit :=
  update_axes a (fun ax =>
    mkAxes (ax_lines ax) (ax_title ax) (ax_title_weight ax) text (ax_ylabel ax)).

Definition Axes_set_ylabel (a : axref) (text : string) : M unit :=
  update_axes a (fun ax =>
    mkAxes (ax_lines ax) (ax_title ax) (ax_title_weight ax) (ax_xlabel ax) text).

(** [plt.show()]: the open figure is displayed and closed, so that the next
    plot starts a new one. *)
Definition plt_show : M unit :=
  fun w =>
    let figures := match w_current w with
                   | Some a => option_list (w_axes w !! a)
                   | None => []
                   end in
    (mkWorld (w_heap w) (w_axes w) None (w_trace w ++ [Shown figures]), inr tt).

End Plotting.

Import Plotting.

(* ===================================================================== *)
(** ** utils_finance.py *)
(* ===================================================================== *)

Section UtilsFinance.

Variable libm_log : positive -> Z -> float64.
Variable provider : Provider.

(** [stock[0]] on a Python list. *)
Definition list_getitem {A} (l : list A) (i : nat) : M A :=
  match l !! i with
  | Some x => ret x
  | None => raise IndexError
  end.

(** [download_stock(stock, date_start, date_end)] *)
Definition download_stock (stock : list string) (date_start date_end : date)
  : M DataFrame :=
  (* Log *)
  let* tick := list_getitem stock 0 in
  logger_info (String.append "Download data from " tick);;
  (* Import data from Yahoo Finance *)
  let* df := get_data_yahoo provider stock date_start date_end in
  (* Delete annoying labels *)
  let* columns := get_level_values df 1 in
  let* df := set_columns df columns in
  let df := set_columns_name df None in
  let df := set_index_name df None in
  (* Rename columns *)
  let* df := set_columns df
               (Index_of_list ["Adj Close"; "Close"; "High"; "Low"; "Open"; "Volume"]) in
  (* Reorder the columns *)
  let* df := DataFrame_select df ["Open"; "Low"; "Close"; "High"; "Volume"] in
  ret df.

(** [compute_returns(data, log = False)] *)
Definition compute_returns (data : DataFrame) (log : bool) : M Series :=
  (* Select the closing prices *)
  let* series := DataFrame_getitem data "Close" in
  (* Compute the returns *)
  if log then
    let* series_lag := Series_shift series 1 zero in
    let* ratio := Series_truediv series_lag series in
    np_log libm_log ratio
  else
    let* returns := Series_pct_change series in
    Series_setitem returns 0 one;;
    ret returns.

(** [plot_cummulative_returns(data, tick = '', log = False, show = True)];
    Python's [None] is Rocq's [None]. *)
Definition plot_cummulative_returns (data : DataFrame) (tick : string)
    (log show : bool) : M (option axref) :=
  (* Compute the returns *)
  let* returns := compute_returns data log in
  (* Compute the cummulative product *)
  let* returns_1 := Series_add_scalar returns one in
  let* returns := Series_cumprod returns_1 in
  (* Plot the figure *)
  let* ax := sns_lineplot (s_index returns) returns in
  (* Formatting *)
  Axes_set_title ax (String.append tick " - Daily Cummulative Returns") "bold";;
  Axes_set_xlabel ax "";;
  Axes_set_ylabel ax "Cummulative returns";;
  (* Show if necessary *)
  if show then
    plt_show;;
    ret None
  else
    ret (Some ax).

End UtilsFinance.

(** The default arguments of [download_stock]: [datetime(2000, 1, 1)] and
    [datetime(2019, 12, 31)] as days since 1970-01-01. *)
Definition default_stock : list string := ["AAPL"].
Definition default_date_start : date := 10957%Z.
Definition default_date_end : date := 18261%Z.

(* ===================================================================== *)
(** ** Vocabulary of the statements *)
(* ===================================================================== *)

(** [data] is a Price Series in the world [w] with the Close values [close]:
    it has a [Close] column, whose buffer holds [close], one value per row. *)
Definition PriceSeries (w : world) (data : DataFrame) (close : list float64) : Prop :=
  exists l, find_column ["Close"] (df_columns data) = Some l
            /\ w_heap w !! l = Some close
            /\ length close = length (df_index data).

(** pyplot's current Axes, when there is one, is an Axes that exists. *)
Definition current_ok (w : world) : Prop :=
  match w_current w with
  | Some a => a < length (w_axes w)
  | None => True
  end.

(** The index and the values of the Series a call returned, read in the
    world the call left. *)
Definition returned_series (r : world * (exn + Series))
  : exn + (list date * list float64) :=
  match r with
  | (w', inr s) =>
      match w_heap w' !! s_data s with
      | Some v => inr (s_index s, v)
      | None => inl DanglingRef
      end
  | (_, inl e) => inl e
  end.

(** The line a call drew last on the Axes it returned. *)
Definition returned_line (r : world * (exn + option axref))
  : option (list date * list float64) :=
  match r with
  | (w', inr (Some a)) => ax ← w_axes w' !! a; last (ax_lines ax)
  | _ => None
  end.

(** The outcome of a call, without the world. *)
Definition outcome {A} (r : world * (exn + A)) : exn + A := snd r.

(** The events a call added to the trace of [w]. *)
Definition emitted {A} (w : world) (r : world * (exn + A)) : list event :=
  drop (length (w_trace w)) (w_trace (fst r)).

Section Values.

Variable libm_log : positive -> Z -> float64.

(** The values of [compute_returns] in each mode, from the Close values. *)
Definition log_returns (close : list float64) : list float64 :=
  log libm_log <$> zip_with div (shift_values 1 zero close) close.

Definition simple_returns (close : list float64) : list float64 :=
  <[0 := one]> (pct_change_values close).

Definition returns_values (log : bool) (close : list float64) : list float64 :=
  if log then log_returns close else simple_returns close.

(** [(returns + 1).cumprod()] *)
Definition cumulative_values (returns : list float64) : list float64 :=
  cumprod_values ((fun x => add x one) <$> returns).

End Values.

(** A world with one frame: a date index [0, 1, ...] and a Close column. *)
Definition close_world (close : list float64) : world :=
  mkWorld [close] [] None [].

Definition close_frame (n : nat) : DataFrame :=
  mkDataFrame (Z.of_nat <$> seq 0 n) None [(["Close"], 0)] [None].

(** A stand-in for the C library on positive finite arguments, for running
    the model where the value of a logarithm does not matter. *)
Definition sample_libm_log : positive -> Z -> float64 :=
  fun m e => S754_finite false m e.

(** A provider that answers as Yahoo does: six attributes for each symbol
    asked for, in the order of the attributes, two trading days. *)
Definition sample_attributes : list string :=
  ["Adj Close"; "Close"; "High"; "Low"; "Open"; "Volume"].

Definition sample_provider : Provider :=
  fun symbols date_start date_end =>
    inr (mkResponse [date_start; date_end]
           (a ← sample_attributes;
            s ← symbols;
            [([a; s], [of_Z 100; of_Z 110])])).

(** The Axes after [plot_cummulative_returns] drew on it. *)
Definition cumulative_axes (ax0 : Axes) (index : list date) (c : list float64)
    (tick : string) : Axes :=
  mkAxes (ax_lines ax0 ++ [(index, c)])
         (String.append tick " - Daily Cummulative Returns") "bold"
         "" "Cummulative returns".

(** The outcome of [plot_cummulative_returns] once the returns [r] are in the
    heap [h1]. *)
Definition plot_outcome (w : world) (h1 : heap) (index : list date)
    (r : list float64) (tick : string) (show : bool)
  : world * (exn + option axref) :=
  let c := cumulative_values r in
  let h2 := h1 ++ [(fun x => add x one) <$> r; c] in
  let a := default (length (w_axes w)) (w_current w) in
  let axes0 := match w_current w with
               | Some _ => w_axes w
               | None => w_axes w ++ [empty_axes]
               end in
  let axes := alter (fun ax => cumulative_axes ax index c tick) a axes0 in
  if show
  then (mkWorld h2 axes None (w_trace w ++ [Shown (option_list (axes !! a))]),
        inr None)
  else (mkWorld h2 axes (Some a) (w_trace w), inr (Some a)).

(** [m] moves every world to one related to it by [R]. *)
Definition preserves (R : relation world) {A} (m : M A) : Prop :=
  forall w, R w (fst (m w)).

(** The heap only grows: what was allocated keeps its contents. *)
Definition extends (w w' : world) : Prop :=
  exists fresh, w_heap w' = w_heap w ++ fresh.

(** Nothing is logged, requested or shown. *)
Definition same_trace (w w' : world) : Prop := w_trace w' = w_trace w.

(** The contents of a frame in a world: each label with the values of its
    column. *)
Definition frame_contents (w : world) (data : DataFrame)
  : list (label * option (list float64)) :=
  (fun c => (fst c, w_heap w !! snd c)) <$> df_columns data.

(** Every column of the frame has its buffer in the world. *)
Definition allocated (w : world) (data : DataFrame) : Prop :=
  Forall (fun c : label * loc => snd c < length (w_heap w)) (df_columns data).

(** The values [df[names]] copies: those of the columns named, in order. *)
Definition columns_values (h : heap) (cols : list (label * loc))
    (names : list string) : option (list (list float64)) :=
  mapM (fun n => l ← find_column [n] cols; h !! l) names.

(** The tolerance the examples are read with: [1e-15]. *)
Definition tolerance : Q := 1 # 1000000000000000.

Definition empty_world : world := mkWorld [] [] None [].

(* ===================================================================== *)
(** ** plotly and [plot_candlestick] *)
(* ===================================================================== *)

Module Plotly.

(** A [go.Candlestick] trace: the values it was built from. *)
Record Candlestick := mkCandlestick {
  cs_x : list date;
  cs_open : list float64;
  cs_close : list float64;
  cs_low : list float64;
  cs_high : list float64
}.

(** The part of a plotly layout the module sets. *)
Record Layout := mkLayout {
  title_text : string;
  title_x : float64;
  title_y : float64;
  title_font_size : Z;
  xaxis_title_text : string;
  xaxis_rangeslider_visible : bool;
  yaxis_title_text : string;
  layout_width : Z;
  layout_height : Z
}.

Record Figure := mkFigure {
  fig_data : list Candlestick;
  fig_layout : Layout
}.

(** The world, with the figures plotly has displayed. *)
Record pworld := mkPworld {
  p_world : world;
  p_shown : list Figure
}.

Definition P (A : Type) : Type := pworld -> pworld * (exn + A).

Definition pret {A} (a : A) : P A := fun pw => (pw, inr a).
Definition pbind {A B} (m : P A) (k : A -> P B) : P B :=
  fun pw => match m pw with
            | (pw', inr a) => k a pw'
            | (pw', inl e) => (pw', inl e)
            end.

(** A pandas or numpy call inside a computation that may display. *)
Definition lift {A} (m : M A) : P A :=
  fun pw => let (w', r) := m (p_world pw) in (mkPworld w' (p_shown pw), r).

Declare Scope plotly_scope.
Delimit Scope plotly_scope with plotly.
Notation "'let*' x ':=' m 'in' k" := (pbind m (fun x => k))
  (at level 10, x name, m at level 100, k at level 200) : plotly_scope.

(** [go.Candlestick(x, open, close, low, high)]: the trace takes the values
    of the four Series as they are at the call. *)
Definition go_Candlestick (x : list date) (open close low high : Series)
  : M Candlestick :=
  let* o := load (s_data open) in
  let* c := load (s_data close) in
  let* l := load (s_data low) in
  let* h := load (s_data high) in
  ret (mkCandlestick x o c l h).

(** [go.Figure(data, layout)] *)
Definition go_Figure (data : list Candlestick) (layout : Layout) : Figure :=
  mkFigure data layout.

(** [fig.show()]: the figure is displayed. *)
Definition Figure_show (fig : Figure) : P unit :=
  fun pw => (mkPworld (p_world pw) (p_shown pw ++ [fig]), inr tt).

End Plotly.

Import Plotly.

Section Candlestick.
#[local] Open Scope plotly_scope.

(** [plot_candlestick(data, tick = '', currency = '$')] *)
Definition plot_candlestick (data : DataFrame) (tick currency : string) : P unit :=
  (* Create the data object *)
  let* open := lift (DataFrame_getitem data "Open") in
  let* close := lift (DataFrame_getitem data "Close") in
  let* low := lift (DataFrame_getitem data "Low") in
  let* high := lift (DataFrame_getitem data "High") in
  let* candlestick := lift (go_Candlestick (df_index data) open close low high) in
  let data := [candlestick] in
  (* Create the layout object *)
  let layout :=
    mkLayout (String.append tick " - Daily") (div (of_Z 1) (of_Z 2))
             (div (of_Z 9) (of_Z 10)) 30
             "Time" false
             (String.append "Price per share in " currency)
             800 400 in
  (* Make the figure *)
  let fig := go_Figure data layout in
  Figure_show fig.

End Candlestick.

(** [data] has the four price columns in the world [w], with these values. *)
Definition OHLC (w : world) (data : DataFrame) (o c l h : list float64) : Prop :=
  exists lo lc ll lh,
    find_column ["Open"] (df_columns data) = Some lo
    /\ find_column ["Close"] (df_columns data) = Some lc
    /\ find_column ["Low"] (df_columns data) = Some ll
    /\ find_column ["High"] (df_columns data) = Some lh
    /\ w_heap w !! lo = Some o
    /\ w_heap w !! lc = Some c
    /\ w_heap w !! ll = Some l
    /\ w_heap w !! lh = Some h.

(** The figure [plot_candlestick] builds from the index and the four columns. *)
Definition candlestick_figure (index : list date) (o c l h : list float64)
    (tick currency : string) : Figure :=
  mkFigure [mkCandlestick index o c l h]
    (mkLayout (String.append tick " - Daily") (div (of_Z 1) (of_Z 2))
       (div (of_Z 9) (of_Z 10)) 30 "Time" false
       (String.append "Price per share in " currency) 800 400).

(** A frame with the four price columns and a volume, for examples. *)
Definition ohlc_world : world :=
  mkWorld [[of_Z 10; of_Z 11]; [of_Z 9; of_Z 10]; [of_Z 10; of_Z 12];
           [of_Z 12; of_Z 13]; [of_Z 500; of_Z 600]] [] None [].

Definition ohlc_frame : DataFrame :=
  mkDataFrame [default_date_start; default_date_end] None
    [(["Open"], 0); (["Low"], 1); (["Close"], 2); (["High"], 3); (["Volume"], 4)]
    [None].

(** A provider that cannot be reached. *)
Definition failing_provider : Provider := fun _ _ _ => inl RemoteDataError.

(** A provider that answers with one-level column labels. *)
Definition flat_provider : Provider :=
  fun symbols date_start date_end =>
    inr (mkResponse [date_start; date_end]
           ((fun a => ([a], [of_Z 100; of_Z 110])) <$> sample_attributes)).

(** The answer has column labels of at least two levels. *)
Definition two_level (r : Response) : Prop :=
  Forall (fun c : label * list float64 => is_Some (fst c !! 1)) (r_columns r).

(* ===================================================================== *)
(** ** Facts about float64 *)
(* ===================================================================== *)

Lemma isnan_true x : isnan x = true -> x = nan.
Proof. by destruct x. Qed.

Lemma mul_nan_r x : mul x nan = nan.
Proof. by destruct x. Qed.

Lemma mul_nonfinite acc y : isfinite acc = false -> isfinite (mul acc y) = false.
Proof. destruct acc as [| | |]; try done; by destruct y. Qed.

Lemma div_by_zero_nonfinite x z : iszero z = true -> isfinite (div x z) = false.
Proof. destruct z; try done. intros _. by destruct x. Qed.

Lemma log_nonfinite libm_log x : isfinite x = false -> isfinite (log libm_log x) = false.
Proof. destruct x as [|[]| |]; done. Qed.

(** A quotient by a zero is +inf, -inf or NaN, so its logarithm is +inf or
    NaN whatever the numerator. *)
Lemma log_div_by_zero libm_log x z :
  iszero z = true ->
  log libm_log (div x z) = inf \/ log libm_log (div x z) = nan.
Proof.
  destruct z as [sz| | |]; try done. intros _.
  destruct x as [[]|[]| |[] m e]; destruct sz; cbn; auto.
Qed.

(** A zero over anything is a zero or NaN, so its logarithm is -inf or NaN. *)
Lemma log_zero_div libm_log z x :
  iszero z = true ->
  log libm_log (div z x) = neg_inf \/ log libm_log (div z x) = nan.
Proof.
  destruct z as [sz| | |]; try done. intros _.
  destruct x as [[]|[]| |[] m e]; destruct sz; cbn; auto.
Qed.

Lemma div_zero_nonzero x :
  iszero x = false -> isnan x = false -> iszero (div zero x) = true.
Proof. by destruct x. Qed.

Lemma zero_div_nonzero z x :
  iszero z = true -> iszero x = false -> isnan x = false -> iszero (div z x) = true.
Proof. destruct z; try done. by destruct x. Qed.

Lemma sub_zero_one z : iszero z = true -> sub z one = of_Z (-1).
Proof. by destruct z. Qed.

Lemma log_zero libm_log z : iszero z = true -> log libm_log z = neg_inf.
Proof. by destruct z. Qed.

Lemma div_zero_positive x : ispositive x = true -> div zero x = zero.
Proof. by destruct x as [| [] | | []]. Qed.

(* ===================================================================== *)
(** ** Facts about the values *)
(* ===================================================================== *)

Lemma length_shift_values n fill v : length (shift_values n fill v) = length v.
Proof.
  unfold shift_values. rewrite length_take, length_app, length_replicate. lia.
Qed.

Lemma lookup_shift_values_0 fill v x :
  v !! 0 = Some x -> shift_values 1 fill v !! 0 = Some fill.
Proof.
  intros H. unfold shift_values. destruct v; [done|]. reflexivity.
Qed.

Lemma lookup_shift_values_S fill v i :
  S i < length v -> shift_values 1 fill v !! S i = v !! i.
Proof.
  intros H. unfold shift_values. rewrite lookup_take_lt by done. reflexivity.
Qed.

Lemma length_pad_from last v : length (pad_from last v) = length v.
Proof.
  revert last. induction v as [|x r IH]; intros last; simpl; [done|].
  destruct (isnan x); simpl; by rewrite IH.
Qed.

Lemma lookup_pad_from last v i x :
  v !! i = Some x -> isnan x = false -> pad_from last v !! i = Some x.
Proof.
  revert last i. induction v as [|y r IH]; intros last i Hi Hx; [done|].
  destruct i as [|i]; simpl in *.
  - injection Hi as ->. by rewrite Hx.
  - destruct (isnan y); simpl; by apply IH.
Qed.

Lemma length_running_product acc v : length (running_product acc v) = length v.
Proof. revert acc. induction v as [|x r IH]; intros acc; simpl; [done | by rewrite IH]. Qed.

Lemma length_np_cumprod v : length (np_cumprod v) = length v.
Proof. destruct v; simpl; [done | by rewrite length_running_product]. Qed.

Lemma length_cumprod_values v : length (cumprod_values v) = length v.
Proof.
  unfold cumprod_values.
  rewrite length_zip_with, length_np_cumprod, length_fmap. lia.
Qed.

Lemma lookup_running_product_0 acc v y :
  v !! 0 = Some y -> running_product acc v !! 0 = Some (mul acc y).
Proof. destruct v; [done|]. simpl. by intros [= ->]. Qed.

Lemma lookup_running_product_S acc v i p y :
  running_product acc v !! i = Some p -> v !! S i = Some y ->
  running_product acc v !! S i = Some (mul p y).
Proof.
  revert acc i. induction v as [|x r IH]; intros acc i Hp Hy; [done|].
  destruct i as [|i]; simpl in *.
  - injection Hp as <-. by apply lookup_running_product_0.
  - by apply IH.
Qed.

Lemma lookup_np_cumprod_S v i p y :
  np_cumprod v !! i = Some p -> v !! S i = Some y ->
  np_cumprod v !! S i = Some (mul p y).
Proof.
  destruct v as [|x r]; [done|]. intros Hp Hy.
  destruct i as [|i]; simpl in *.
  - injection Hp as <-. by apply lookup_running_product_0.
  - by apply lookup_running_product_S.
Qed.

Lemma lookup_cumprod_values_0 v x :
  v !! 0 = Some x -> cumprod_values v !! 0 = Some x.
Proof.
  destruct v as [|y r]; [done|]. intros [= ->]. unfold cumprod_values. simpl.
  destruct (isnan x) eqn:E; [|done]. by rewrite (isnan_true _ E).
Qed.

Lemma lookup_cumprod_values_S v i p x cp :
  v !! i = Some p -> isnan p = false -> v !! S i = Some x ->
  cumprod_values v !! i = Some cp ->
  cumprod_values v !! S i = Some (mul cp x).
Proof.
  intros Hp Np Hx Hc. unfold cumprod_values in *.
  rewrite lookup_zip_with in Hc. rewrite Hp in Hc. simpl in Hc. rewrite Np in Hc.
  destruct (np_cumprod _ !! i) as [q|] eqn:Hq; [|done]. simpl in Hc.
  injection Hc as ->.
  rewrite lookup_zip_with, Hx. simpl.
  erewrite lookup_np_cumprod_S; [|exact Hq|by rewrite list_lookup_fmap, Hx].
  simpl. destruct (isnan x) eqn:E; [|done].
  by rewrite (isnan_true _ E), mul_nan_r.
Qed.

Lemma running_product_nonfinite acc v i x :
  isfinite acc = false -> running_product acc v !! i = Some x -> isfinite x = false.
Proof.
  revert acc i. induction v as [|y r IH]; intros acc i Hacc Hx; [done|].
  destruct i as [|i]; simpl in Hx.
  - injection Hx as <-. by apply mul_nonfinite.
  - eapply IH; [|exact Hx]. by apply mul_nonfinite.
Qed.

Lemma cumprod_values_nonfinite s rest i x :
  cumprod_values (S754_infinity s :: rest) !! i = Some x -> isfinite x = false.
Proof.
  unfold cumprod_values. rewrite lookup_zip_with_Some.
  intros (a & b & -> & Ha & Hb).
  destruct (isnan a) eqn:E; [done|].
  simpl in Hb. destruct i as [|i]; simpl in Hb.
  - by injection Hb as <-.
  - eapply running_product_nonfinite; [|exact Hb]. done.
Qed.

(* ===================================================================== *)
(** ** Running [compute_returns] *)
(* ===================================================================== *)

Section Running.

Variable libm_log : positive -> Z -> float64.

Lemma length_log_returns close : length (log_returns libm_log close) = length close.
Proof.
  unfold log_returns.
  rewrite length_fmap, length_zip_with, length_shift_values. lia.
Qed.

Lemma lookup_log_returns_0 close c :
  close !! 0 = Some c -> log_returns libm_log close !! 0 = Some (log libm_log (div zero c)).
Proof.
  intros H. unfold log_returns.
  rewrite list_lookup_fmap, lookup_zip_with.
  rewrite (lookup_shift_values_0 _ _ _ H), H. reflexivity.
Qed.

Lemma lookup_log_returns_S close i a b :
  close !! i = Some a -> close !! S i = Some b ->
  log_returns libm_log close !! S i = Some (log libm_log (div a b)).
Proof.
  intros Ha Hb. unfold log_returns.
  rewrite list_lookup_fmap, lookup_zip_with.
  rewrite lookup_shift_values_S by (by eapply lookup_lt_Some).
  rewrite Ha, Hb. reflexivity.
Qed.

Lemma length_pct_change_values v : length (pct_change_values v) = length v.
Proof.
  unfold pct_change_values, pad.
  rewrite length_zip_with, length_shift_values, length_pad_from. lia.
Qed.

Lemma length_simple_returns close : length (simple_returns close) = length close.
Proof. unfold simple_returns. by rewrite length_insert, length_pct_change_values. Qed.

Lemma lookup_simple_returns_0 close :
  close <> [] -> simple_returns close !! 0 = Some one.
Proof.
  intros H. unfold simple_returns. apply list_lookup_insert_eq.
  rewrite length_pct_change_values. destruct close; [done | simpl; lia].
Qed.

Lemma lookup_simple_returns_S close i a b :
  close !! i = Some a -> close !! S i = Some b ->
  isnan a = false -> isnan b = false ->
  simple_returns close !! S i = Some (sub (div b a) one).
Proof.
  intros Ha Hb Na Nb. unfold simple_returns.
  rewrite list_lookup_insert_ne by done.
  unfold pct_change_values, pad. rewrite lookup_zip_with.
  rewrite lookup_shift_values_S
    by (rewrite length_pad_from; by eapply lookup_lt_Some).
  rewrite (lookup_pad_from _ _ _ _ Hb Nb), (lookup_pad_from _ _ _ _ Ha Na).
  reflexivity.
Qed.

(** Running *)
Lemma load_run w l v : w_heap w !! l = Some v -> load l w = (w, inr v).
Proof. intros H. unfold load. by rewrite H. Qed.

Lemma new_series_run w idx v :
  new_series idx v w
  = (set_heap (w_heap w ++ [v]) w, inr (mkSeries idx (length (w_heap w)))).
Proof. reflexivity. Qed.

Lemma heap_lookup_new (h : heap) (k : list (list float64)) v n :
  n = length h -> (h ++ v :: k) !! n = Some v.
Proof. apply list_lookup_middle. Qed.

Lemma heap_lookup_old (h k : heap) l v :
  h !! l = Some v -> (h ++ k) !! l = Some v.
Proof. apply lookup_app_l_Some. Qed.

Lemma compute_returns_log_run w data close :
  PriceSeries w data close ->
  compute_returns libm_log data true w
  = (set_heap (w_heap w ++ [shift_values 1 zero close;
                            zip_with div (shift_values 1 zero close) close;
                            log_returns libm_log close]) w,
     inr (mkSeries (df_index data) (length (w_heap w) + 2))).
Proof.
  intros (l & Hl & Hv & _).
  unfold compute_returns, DataFrame_getitem. rewrite Hl.
  unfold Series_shift, Series_truediv, np_log, new_series, bind, ret, alloc. cbn.
  rewrite (load_run _ _ _ Hv). cbn.
  erewrite load_run by (cbn; by apply heap_lookup_new). cbn.
  erewrite load_run by (cbn; by apply heap_lookup_old).
  cbn. erewrite load_run by (cbn; by apply heap_lookup_new).
  cbn. unfold set_heap. cbn. rewrite <- !app_assoc, !length_app. cbn.
  repeat f_equal.
Qed.

Lemma compute_returns_simple_run w data close :
  PriceSeries w data close ->
  compute_returns libm_log data false w
  = match close with
    | [] => (set_heap (w_heap w ++ [[]]) w, inl IndexError)
    | _ => (set_heap (w_heap w ++ [simple_returns close]) w,
            inr (mkSeries (df_index data) (length (w_heap w))))
    end.
Proof.
  intros (l & Hl & Hv & _).
  unfold compute_returns, DataFrame_getitem. rewrite Hl.
  unfold Series_pct_change, Series_setitem, new_series, bind, ret, alloc. cbn.
  rewrite (load_run _ _ _ Hv). cbn.
  unfold store. cbn. rewrite heap_lookup_new by done.
  rewrite length_pct_change_values.
  destruct close as [|c r]; [reflexivity|].
  cbn [length]. destruct (decide (0 < S (length r))); [|lia].
  unfold set_heap. cbn. do 2 f_equal.
  rewrite insert_app_r_alt by done. by rewrite Nat.sub_diag.
Qed.

Lemma plot_cummulative_returns_run w data tick lg show h1 s r :
  compute_returns libm_log data lg w = (set_heap h1 w, inr s) ->
  h1 !! s_data s = Some r ->
  plot_cummulative_returns libm_log data tick lg show w
  = plot_outcome w h1 (s_index s) r tick show.
Proof.
  intros Hrun Hr.
  unfold plot_cummulative_returns. unfold bind at 1. rewrite Hrun.
  unfold Series_add_scalar, Series_cumprod, new_series, bind, ret, alloc. cbn.
  erewrite load_run by (cbn; exact Hr). cbn.
  erewrite load_run by (cbn; by apply heap_lookup_new). cbn.
  unfold sns_lineplot, bind.
  erewrite load_run by (cbn; by apply heap_lookup_new). cbn.
  unfold gca, plot_outcome, cumulative_values. cbn.
  destruct (w_current w) as [a0|] eqn:Hcur; cbn; rewrite ?Hcur;
    destruct show; cbn; rewrite ?Hcur; unfold set_heap, set_axes; cbn;
    rewrite <- ?app_assoc, !list_alter_alter_eq; reflexivity.
Qed.

Lemma plot_outcome_line w h1 index r tick :
  current_ok w ->
  returned_line (plot_outcome w h1 index r tick false)
  = Some (index, cumulative_values r).
Proof.
  unfold current_ok, plot_outcome, returned_line. cbn.
  destruct (w_current w) as [a0|] eqn:Hcur; cbn; intros Hok.
  - destruct (lookup_lt_is_Some_2 _ _ Hok) as [ax0 Hax0].
    rewrite list_lookup_alter_eq, Hax0. cbn. by rewrite last_snoc.
  - rewrite list_lookup_alter_eq, list_lookup_middle by done. cbn. done.
Qed.

End Running.

(* ===================================================================== *)
(** ** What a call leaves in place *)
(* ===================================================================== *)

Section Preserves.

Variable R : relation world.
Hypothesis R_refl : forall w, R w w.
Hypothesis R_trans : forall w1 w2 w3, R w1 w2 -> R w2 w3 -> R w1 w3.

Lemma preserves_ret {A} (a : A) : preserves R (ret a).
Proof. intros w. apply R_refl. Qed.

Lemma preserves_raise {A} e : preserves R (@raise A e).
Proof. intros w. apply R_refl. Qed.

Lemma preserves_bind {A B} (m : M A) (k : A -> M B) :
  preserves R m -> (forall a, preserves R (k a)) -> preserves R (bind m k).
Proof.
  intros Hm Hk w. unfold bind. specialize (Hm w).
  destruct (m w) as [w1 [e|a]]; [exact Hm|].
  eapply R_trans; [exact Hm | apply Hk].
Qed.

Lemma preserves_load l : preserves R (load l).
Proof. intros w. unfold load. destruct (w_heap w !! l); apply R_refl. Qed.

Lemma preserves_list_getitem {A} (l : list A) i : preserves R (list_getitem l i).
Proof. unfold list_getitem. destruct (l !! i); [apply preserves_ret | apply preserves_raise]. Qed.

Lemma preserves_get_level_values df n : preserves R (get_level_values df n).
Proof.
  unfold get_level_values. destruct (mapM _ _); [apply preserves_ret | apply preserves_raise].
Qed.

Lemma preserves_set_columns df index : preserves R (set_columns df index).
Proof.
  unfold set_columns. destruct (decide _); [apply preserves_ret | apply preserves_raise].
Qed.

Lemma preserves_DataFrame_getitem df name : preserves R (DataFrame_getitem df name).
Proof.
  unfold DataFrame_getitem. destruct (find_column _ _); [apply preserves_ret | apply preserves_raise].
Qed.

End Preserves.

Lemma extends_refl w : extends w w.
Proof. exists []. by rewrite app_nil_r. Qed.

Lemma extends_trans w1 w2 w3 : extends w1 w2 -> extends w2 w3 -> extends w1 w3.
Proof. intros [f1 H1] [f2 H2]. exists (f1 ++ f2). by rewrite H2, H1, app_assoc. Qed.

Lemma same_trace_refl w : same_trace w w.
Proof. done. Qed.

Lemma same_trace_trans w1 w2 w3 : same_trace w1 w2 -> same_trace w2 w3 -> same_trace w1 w3.
Proof. unfold same_trace. congruence. Qed.

Create HintDb preserves discriminated.
#[local] Hint Resolve extends_refl extends_trans same_trace_refl same_trace_trans : preserves.
#[local] Hint Resolve preserves_ret preserves_raise preserves_load preserves_list_getitem
  preserves_get_level_values preserves_set_columns preserves_DataFrame_getitem : preserves.

Lemma extends_alloc v : preserves extends (alloc v).
Proof. intros w. by exists [v]. Qed.

Lemma same_trace_alloc v : preserves same_trace (alloc v).
Proof. done. Qed.

Lemma same_trace_store l i x : preserves same_trace (store l i x).
Proof. intros w. unfold store. destruct (w_heap w !! l); [destruct (decide _)|]; done. Qed.

Ltac same_heap := exists []; cbn; by rewrite app_nil_r.

Lemma extends_emit e : preserves extends (emit e).
Proof. intros w. same_heap. Qed.

Lemma extends_update_axes a f : preserves extends (update_axes a f).
Proof. intros w. same_heap. Qed.

Lemma extends_gca : preserves extends gca.
Proof. intros w. unfold gca. destruct (w_current w); same_heap. Qed.

Lemma extends_plt_show : preserves extends plt_show.
Proof. intros w. same_heap. Qed.

#[local] Hint Resolve extends_alloc same_trace_alloc same_trace_store extends_emit
  extends_update_axes extends_gca extends_plt_show : preserves.

Lemma extends_bind {A B} (m : M A) (k : A -> M B) :
  preserves extends m -> (forall a, preserves extends (k a)) ->
  preserves extends (bind m k).
Proof. apply preserves_bind, extends_trans. Qed.

Lemma same_trace_bind {A B} (m : M A) (k : A -> M B) :
  preserves same_trace m -> (forall a, preserves same_trace (k a)) ->
  preserves same_trace (bind m k).
Proof. apply preserves_bind, same_trace_trans. Qed.

Ltac preserves_step :=
  first [ progress intros
        | apply extends_bind
        | apply same_trace_bind
        | solve [eauto with preserves]
        | match goal with
          | |- preserves _ (if ?b then _ else _) => destruct b
          end ].

Lemma extends_new_series idx v : preserves extends (new_series idx v).
Proof. unfold new_series. repeat preserves_step. Qed.

Lemma same_trace_new_series idx v : preserves same_trace (new_series idx v).
Proof. unfold new_series. repeat preserves_step. Qed.
#[local] Hint Resolve extends_new_series same_trace_new_series : preserves.

Lemma same_trace_alloc_columns cols : preserves same_trace (alloc_columns cols).
Proof.
  induction cols as [|[n v] r IH]; simpl; [eauto with preserves|].
  repeat preserves_step.
Qed.

Lemma same_trace_take_columns cols names : preserves same_trace (take_columns cols names).
Proof.
  induction names as [|n r IH]; simpl; [eauto with preserves|].
  destruct (find_column _ _); [|eauto with preserves].
  repeat preserves_step.
Qed.
#[local] Hint Resolve same_trace_alloc_columns same_trace_take_columns : preserves.

Lemma trace_bind_silent {A B} (m : M A) (k : A -> M B) w :
  (forall a, preserves same_trace (k a)) ->
  w_trace (fst (bind m k w)) = w_trace (fst (m w)).
Proof.
  intros Hk. unfold bind. destruct (m w) as [w1 [e|a]]; [done|]. apply Hk.
Qed.

Lemma get_data_yahoo_trace provider symbols date_start date_end w :
  w_trace (fst (get_data_yahoo provider symbols date_start date_end w))
  = w_trace w ++ [Request symbols date_start date_end].
Proof.
  unfold get_data_yahoo, bind, emit.
  destruct (provider symbols date_start date_end) as [e|r]; [done|].
  match goal with |- context [alloc_columns ?c ?w1] =>
    pose proof (same_trace_alloc_columns c w1) as H;
    destruct (alloc_columns c w1) as [w2 [e|cols]] end; exact H.
Qed.

Lemma download_stock_trace provider tick rest date_start date_end w :
  w_trace (fst (download_stock provider (tick :: rest) date_start date_end w))
  = w_trace w ++ [LogInfo (String.append "Download data from " tick);
                  Request (tick :: rest) date_start date_end].
Proof.
  unfold download_stock.
  change (list_getitem (tick :: rest) 0) with (ret (A := string) tick).
  unfold bind at 1. unfold ret at 1.
  unfold logger_info, bind at 1. unfold emit at 1.
  rewrite trace_bind_silent.
  - rewrite get_data_yahoo_trace. cbn. by rewrite <- app_assoc.
  - intros df. repeat preserves_step.
Qed.

Section Frame.
Variable libm_log : positive -> Z -> float64.

Lemma compute_returns_extends data lg :
  preserves extends (compute_returns libm_log data lg).
Proof.
  unfold compute_returns. apply extends_bind; [eauto with preserves|].
  intros series. destruct lg.
  - unfold Series_shift, Series_truediv, np_log. repeat preserves_step.
  - intros w. unfold Series_pct_change, Series_setitem, new_series, bind, load, alloc, ret.
    destruct (w_heap w !! s_data series) as [v|]; [|apply extends_refl].
    cbn. unfold store. cbn. rewrite list_lookup_middle by done.
    destruct (decide _); cbn.
    + eexists. rewrite insert_app_r_alt by done. reflexivity.
    + by eexists.
Qed.

Lemma plot_cummulative_returns_extends data tick lg show :
  preserves extends (plot_cummulative_returns libm_log data tick lg show).
Proof.
  unfold plot_cummulative_returns.
  apply extends_bind; [apply compute_returns_extends|].
  unfold Series_add_scalar, Series_cumprod, sns_lineplot,
    Axes_set_title, Axes_set_xlabel, Axes_set_ylabel.
  repeat preserves_step.
Qed.
End Frame.

Lemma bind_inr {A B} (m : M A) (k : A -> M B) w w' b :
  bind m k w = (w', inr b) ->
  exists w1 a, m w = (w1, inr a) /\ k a w1 = (w', inr b).
Proof.
  unfold bind. destruct (m w) as [w1 [e|a]]; [done|]. intros H. by exists w1, a.
Qed.

Lemma ret_inr {A} (a b : A) w w' : ret a w = (w', inr b) -> w' = w /\ b = a.
Proof. unfold ret. by intros [= -> ->]. Qed.

Lemma alloc_columns_run cols w :
  alloc_columns cols w
  = (set_heap (w_heap w ++ (snd <$> cols)) w,
     inr (zip (fst <$> cols) (seq (length (w_heap w)) (length cols)))).
Proof.
  revert w. induction cols as [|[n v] r IH]; intros w.
  - cbn. unfold ret, set_heap. rewrite app_nil_r. by destruct w.
  - cbn [alloc_columns]. unfold bind at 1. unfold alloc at 1.
    unfold bind at 1. rewrite IH. cbn.
    unfold ret, set_heap. cbn. rewrite <- app_assoc, length_app. cbn.
    by rewrite Nat.add_1_r.
Qed.

Lemma columns_values_app h k cols names copies :
  columns_values h cols names = Some copies ->
  columns_values (h ++ k) cols names = Some copies.
Proof.
  unfold columns_values. rewrite !mapM_Some. intros H.
  eapply Forall2_impl; [exact H|]. cbn. intros n v Hn.
  destruct (find_column [n] cols) as [l|]; cbn in *; [|done].
  by apply lookup_app_l_Some.
Qed.

Lemma take_columns_run cols names w copies :
  columns_values (w_heap w) cols names = Some copies ->
  take_columns cols names w
  = (set_heap (w_heap w ++ copies) w,
     inr (zip ((fun n => [n]) <$> names)
              (seq (length (w_heap w)) (length names)))).
Proof.
  revert w copies. induction names as [|n r IH]; intros w copies Hc.
  - cbn in Hc. injection Hc as <-. cbn. unfold ret, set_heap.
    rewrite app_nil_r. by destruct w.
  - unfold columns_values in Hc. cbn in Hc.
    destruct (find_column [n] cols) as [l|] eqn:Hl; [|done]. cbn in Hc.
    destruct (w_heap w !! l) as [v|] eqn:Hv; [|done]. cbn in Hc.
    destruct (mapM _ r) as [rest|] eqn:Hr; [|done]. cbn in Hc.
    injection Hc as <-.
    cbn [take_columns]. rewrite Hl.
    unfold bind at 1. rewrite (load_run _ _ _ Hv).
    unfold bind at 1. unfold alloc at 1.
    unfold bind at 1.
    rewrite (IH _ rest) by (cbn; by apply columns_values_app).
    cbn. unfold ret, set_heap. cbn. rewrite <- app_assoc, length_app. cbn.
    by rewrite Nat.add_1_r.
Qed.

Lemma find_column_renamed (a b c d e f : loc) :
  let cols := [(["Adj Close"], a); (["Close"], b); (["High"], c);
               (["Low"], d); (["Open"], e); (["Volume"], f)] in
  find_column ["Open"] cols = Some e
  /\ find_column ["Low"] cols = Some d
  /\ find_column ["Close"] cols = Some b
  /\ find_column ["High"] cols = Some c
  /\ find_column ["Volume"] cols = Some f.
Proof. repeat split; vm_compute; reflexivity. Qed.

Lemma download_stock_run provider stock tick date_start date_end w r
    c0 c1 c2 c3 c4 c5 :
  stock !! 0 = Some tick ->
  provider stock date_start date_end = inr r ->
  r_columns r = [c0; c1; c2; c3; c4; c5] ->
  Forall (fun c : label * list float64 => is_Some (fst c !! 1)) (r_columns r) ->
  let n := length (w_heap w) in
  download_stock provider stock date_start date_end w
  = (mkWorld (w_heap w ++ [snd c0; snd c1; snd c2; snd c3; snd c4; snd c5;
                           snd c4; snd c3; snd c1; snd c2; snd c5])
       (w_axes w) (w_current w)
       (w_trace w ++ [LogInfo (String.append "Download data from " tick);
                      Request stock date_start date_end]),
     inr (mkDataFrame (r_index r) None
            [(["Open"], n + 6); (["Low"], n + 7); (["Close"], n + 8);
             (["High"], n + 9); (["Volume"], n + 10)]
            [None])).
Proof.
  intros Htick Hr Hcols Hlev. cbv zeta.
  rewrite Hcols in Hlev.
  repeat match goal with
         | H : Forall _ (_ :: _) |- _ => apply Forall_cons in H as [[? ?] H]
         end.
  clear Hlev.
  unfold download_stock, list_getitem. rewrite Htick.
  unfold bind at 1. unfold ret at 1.
  unfold logger_info, bind at 1. unfold emit at 1.
  unfold bind at 1. unfold get_data_yahoo. unfold bind at 1. unfold emit at 1.
  rewrite Hr. unfold bind at 1. rewrite alloc_columns_run, Hcols.
  cbn -[String.append].
  unfold get_level_values, bind at 1. cbn -[String.append].
  destruct c0 as [l0 v0], c1 as [l1 v1], c2 as [l2 v2], c3 as [l3 v3],
    c4 as [l4 v4], c5 as [l5 v5]. cbn [fst snd] in *.
  repeat match goal with H : _ !! 1 = Some _ |- _ => rewrite H; clear H end.
  cbn -[String.append].
  unfold bind at 1. unfold set_columns at 1. cbn -[String.append].
  destruct (decide (6 = 6)) as [_|]; [|done]. unfold ret at 1.
  unfold bind at 1. unfold set_columns at 1. cbn -[String.append].
  destruct (decide (6 = 6)) as [_|]; [|done]. unfold ret at 1.
  unfold DataFrame_select, bind at 1. unfold bind at 1.
  cbn -[String.append take_columns].
  erewrite take_columns_run.
  2:{ unfold columns_values. cbn -[find_column].
      match goal with
      | |- context [find_column _ [(_, ?a); (_, ?b); (_, ?c); (_, ?d); (_, ?e); (_, ?f)]] =>
          destruct (find_column_renamed a b c d e f) as (-> & -> & -> & -> & ->)
      end.
      cbn.
      rewrite !lookup_app_r by lia.
      repeat match goal with
             | |- context [S ?x - ?y] => rewrite (Nat.sub_succ_l y x) by lia
             end.
      rewrite Nat.sub_diag. cbn. reflexivity. }
  cbn -[String.append]. unfold ret, set_heap. cbn -[String.append].
  rewrite <- !app_assoc, !length_app. cbn -[String.append].
  repeat f_equal; lia.
Qed.

Lemma download_stock_inr provider stock date_start date_end w w' df :
  download_stock provider stock date_start date_end w = (w', inr df) ->
  exists tick r,
    stock !! 0 = Some tick
    /\ provider stock date_start date_end = inr r
    /\ length (r_columns r) = 6
    /\ Forall (fun c : label * list float64 => is_Some (fst c !! 1)) (r_columns r).
Proof.
  unfold download_stock.
  intros (w1 & tick & Htick & H)%bind_inr.
  apply bind_inr in H as (w2 & [] & _ & H).
  apply bind_inr in H as (w3 & df0 & Hget & H).
  apply bind_inr in H as (w4 & columns & Hnames & H).
  apply bind_inr in H as (w5 & df1 & Hdf1 & H).
  apply bind_inr in H as (w6 & df2 & Hdf2 & _).
  unfold list_getitem in Htick.
  destruct (stock !! 0) as [t|] eqn:Ht; [|done].
  apply ret_inr in Htick as [_ ->].
  unfold get_data_yahoo in Hget.
  apply bind_inr in Hget as (w2' & [] & _ & Hget).
  destruct (provider stock date_start date_end) as [e|r]; [done|].
  apply bind_inr in Hget as (w3' & cols & Hcols & Hget).
  apply ret_inr in Hget as [_ ->].
  rewrite alloc_columns_run in Hcols. injection Hcols as _ <-.
  unfold get_level_values in Hnames. cbn [df_columns] in Hnames.
  rewrite fst_zip in Hnames by (by rewrite length_fmap, length_seq).
  destruct (mapM _ _) as [labels|] eqn:Hm; [|done].
  apply ret_inr in Hnames as [_ ->].
  unfold set_columns in Hdf1. destruct (decide _) as [Hl1|]; [|done].
  apply ret_inr in Hdf1 as [_ ->].
  unfold set_columns in Hdf2. destruct (decide _) as [Hl2|]; [|done].
  cbn in Hl1, Hl2.
  rewrite length_zip_with in Hl2.
  rewrite length_zip, length_fmap, length_seq in Hl1, Hl2.
  exists t, r. split_and!; [done | done | lia |].
  assert (His : is_Some (mapM (fun l : label => l !! 1) (fst <$> r_columns r)))
    by (by rewrite Hm).
  apply mapM_is_Some in His. by rewrite Forall_fmap in His.
Qed.

Lemma download_stock_contents provider stock date_start date_end w w' df :
  download_stock provider stock date_start date_end w = (w', inr df) ->
  exists r,
    provider stock date_start date_end = inr r
    /\ length (r_columns r) = 6
    /\ df_index df = r_index r
    /\ df_index_name df = None
    /\ df_columns_names df = [None]
    /\ (fst <$> df_columns df)
       = [["Open"]; ["Low"]; ["Close"]; ["High"]; ["Volume"]]
    /\ frame_contents w' df
       = [(["Open"], snd <$> r_columns r !! 4);
          (["Low"], snd <$> r_columns r !! 3);
          (["Close"], snd <$> r_columns r !! 1);
          (["High"], snd <$> r_columns r !! 2);
          (["Volume"], snd <$> r_columns r !! 5)].
Proof.
  intros H.
  destruct (download_stock_inr _ _ _ _ _ _ _ H) as (tick & r & Ht & Hr & Hlen & Hlev).
  destruct (r_columns r) as [|c0 [|c1 [|c2 [|c3 [|c4 [|c5 [|]]]]]]] eqn:Hc;
    try done.
  rewrite <- Hc in Hlev.
  rewrite (download_stock_run _ _ _ _ _ _ _ _ _ _ _ _ _ Ht Hr Hc Hlev) in H.
  injection H as <- <-. exists r. rewrite Hc.
  split_and!; try done.
  unfold frame_contents. cbn.
  rewrite !lookup_app_r by lia.
  repeat match goal with
         | |- context [?a + ?k - ?a] => replace (a + k - a) with k by lia
         end.
  reflexivity.
Qed.

(* ===================================================================== *)
(** ** What the calls return *)
(* ===================================================================== *)

Section Returned.
Variable libm_log : positive -> Z -> float64.

Lemma compute_returns_returned w data close lg :
  PriceSeries w data close ->
  (lg = false -> close <> []) ->
  exists h1 s,
    compute_returns libm_log data lg w = (set_heap h1 w, inr s)
    /\ s_index s = df_index data
    /\ h1 !! s_data s = Some (returns_values libm_log lg close).
Proof.
  intros HP Hne. destruct lg.
  - rewrite (compute_returns_log_run _ _ _ _ HP).
    eexists _, _. split; [reflexivity|]. split; [done|]. cbn.
    rewrite lookup_app_r by lia.
    by replace (length (w_heap w) + 2 - length (w_heap w)) with 2 by lia.
  - rewrite (compute_returns_simple_run _ _ _ _ HP).
    destruct close as [|c r]; [by destruct Hne|].
    eexists _, _. split; [reflexivity|]. split; [done|]. cbn.
    by apply list_lookup_middle.
Qed.

Lemma returned_series_compute_returns w data close lg :
  PriceSeries w data close ->
  (lg = false -> close <> []) ->
  returned_series (compute_returns libm_log data lg w)
  = inr (df_index data, returns_values libm_log lg close).
Proof.
  intros HP Hne.
  destruct (compute_returns_returned _ _ _ _ HP Hne) as (h1 & s & -> & Hi & Hs).
  unfold returned_series. cbn. by rewrite Hs, Hi.
Qed.

Lemma returned_line_plot w data close lg tick :
  PriceSeries w data close ->
  (lg = false -> close <> []) ->
  current_ok w ->
  returned_line (plot_cummulative_returns libm_log data tick lg false w)
  = Some (df_index data, cumulative_values (returns_values libm_log lg close)).
Proof.
  intros HP Hne Hok.
  destruct (compute_returns_returned _ _ _ _ HP Hne) as (h1 & s & Hrun & Hi & Hs).
  rewrite (plot_cummulative_returns_run _ _ _ _ _ _ _ _ _ Hrun Hs).
  rewrite plot_outcome_line by done. by rewrite Hi.
Qed.
End Returned.

Lemma lookup_cumulative_values_0 returns r0 :
  returns !! 0 = Some r0 -> cumulative_values returns !! 0 = Some (add r0 one).
Proof.
  intros H. unfold cumulative_values. apply lookup_cumprod_values_0.
  by rewrite list_lookup_fmap, H.
Qed.

Lemma lookup_cumulative_values_S returns i p x cp :
  returns !! i = Some p -> isnan (add p one) = false ->
  returns !! S i = Some x ->
  cumulative_values returns !! i = Some cp ->
  cumulative_values returns !! S i = Some (mul cp (add x one)).
Proof.
  intros Hp Np Hx Hc. unfold cumulative_values in *.
  eapply lookup_cumprod_values_S; [| exact Np | | exact Hc].
  - by rewrite list_lookup_fmap, Hp.
  - by rewrite list_lookup_fmap, Hx.
Qed.

Lemma length_cumulative_values returns :
  length (cumulative_values returns) = length returns.
Proof. unfold cumulative_values. by rewrite length_cumprod_values, length_fmap. Qed.

Lemma extends_frame_contents w w' data :
  allocated w data -> extends w w' -> frame_contents w' data = frame_contents w data.
Proof.
  intros Hall [fresh Hh]. unfold frame_contents.
  apply list_fmap_ext. intros i c Hc. f_equal.
  rewrite Hh. apply lookup_app_l.
  unfold allocated in Hall. rewrite Forall_lookup in Hall. by eapply Hall.
Qed.


(* ===================================================================== *)
(** ** The claims *)
(* ===================================================================== *)

(** C1: in logarithmic mode, for every Price Series and every index
    [i >= 1], the return at [i] is the logarithm of [Close[i-1] / Close[i]]:
    the previous close over the current one. *)
Theorem C1_log_return_is_log_of_previous_over_current
    libm_log w data close i a b :
  PriceSeries w data close ->
  1 <= i ->
  close !! (i - 1) = Some a ->
  close !! i = Some b ->
  exists returns,
    returned_series (compute_returns libm_log data true w)
    = inr (df_index data, returns)
    /\ returns !! i = Some (log libm_log (div a b)).
Proof.
  intros HP Hi Ha Hb. exists (log_returns libm_log close). split.
  - by apply (returned_series_compute_returns libm_log w data close true).
  - destruct i as [|i]; [lia|]. cbn in Ha. rewrite Nat.sub_0_r in Ha.
    by apply lookup_log_returns_S.
Qed.

(** C1 at [Close = [100; 110]], [i = 1]; the ratio the code takes is not the
    conventional one. *)
Lemma C1_witness :
  PriceSeries (close_world [of_Z 100; of_Z 110]) (close_frame 2) [of_Z 100; of_Z 110]
  /\ (exists returns,
        returned_series (compute_returns sample_libm_log (close_frame 2) true
                           (close_world [of_Z 100; of_Z 110]))
        = inr (df_index (close_frame 2), returns)
        /\ returns !! 1 = Some (log sample_libm_log (div (of_Z 100) (of_Z 110))))
  /\ div (of_Z 100) (of_Z 110) <> div (of_Z 110) (of_Z 100).
Proof.
  split; [exists 0; repeat split; reflexivity|]. split.
  - apply (C1_log_return_is_log_of_previous_over_current sample_libm_log
             (close_world [of_Z 100; of_Z 110]) (close_frame 2)
             [of_Z 100; of_Z 110] 1 (of_Z 100) (of_Z 110)).
    + exists 0. repeat split; reflexivity.
    + lia.
    + reflexivity.
    + reflexivity.
  - vm_compute. discriminate.
Defined.

(** C2, amended: in simple mode, for every Price Series that is not empty,
    the returns have the length of the input, the entry at index 0 is 1, and
    the entry at every index [i >= 1] where neither [Close[i-1]] nor
    [Close[i]] is NaN is [Close[i] / Close[i-1] - 1]. *)
Theorem C2_simple_returns_of_a_non_empty_series libm_log w data close :
  PriceSeries w data close ->
  close <> [] ->
  exists returns,
    returned_series (compute_returns libm_log data false w)
    = inr (df_index data, returns)
    /\ length returns = length close
    /\ returns !! 0 = Some one
    /\ forall i a b,
         1 <= i ->
         close !! (i - 1) = Some a -> close !! i = Some b ->
         isnan a = false -> isnan b = false ->
         returns !! i = Some (sub (div b a) one).
Proof.
  intros HP Hne. exists (simple_returns close). split_and!.
  - by apply (returned_series_compute_returns libm_log w data close false).
  - apply length_simple_returns.
  - by apply lookup_simple_returns_0.
  - intros i a b Hi Ha Hb Na Nb. destruct i as [|i]; [lia|].
    cbn in Ha. rewrite Nat.sub_0_r in Ha. by apply lookup_simple_returns_S.
Qed.

(** C2 at [Close = [100; 110; 99]]. *)
Lemma C2_witness :
  let close := [of_Z 100; of_Z 110; of_Z 99] in
  PriceSeries (close_world close) (close_frame 3) close
  /\ close <> []
  /\ exists returns,
       returned_series (compute_returns sample_libm_log (close_frame 3) false
                          (close_world close))
       = inr (df_index (close_frame 3), returns)
       /\ length returns = length close
       /\ returns !! 0 = Some one
       /\ forall i a b,
            1 <= i ->
            close !! (i - 1) = Some a -> close !! i = Some b ->
            isnan a = false -> isnan b = false ->
            returns !! i = Some (sub (div b a) one).
Proof.
  cbv zeta.
  assert (HP : PriceSeries (close_world [of_Z 100; of_Z 110; of_Z 99])
                 (close_frame 3) [of_Z 100; of_Z 110; of_Z 99])
    by (exists 0; repeat split; reflexivity).
  split; [exact HP|]. split; [discriminate|].
  apply (C2_simple_returns_of_a_non_empty_series sample_libm_log _ _ _ HP).
  discriminate.
Defined.

(** C2 as stated fails twice: on the empty Price Series the call raises
    [IndexError]; and on [Close = [1; NaN; 2]] the missing close is padded, so
    the returns are [[1; 0; 1]] where [Close[i] / Close[i-1] - 1] is NaN at
    both [i = 1] and [i = 2]. *)
Lemma C2_counterexample :
  (PriceSeries (close_world []) (close_frame 0) []
   /\ outcome (compute_returns sample_libm_log (close_frame 0) false (close_world []))
      = inl IndexError)
  /\ (PriceSeries (close_world [of_Z 1; nan; of_Z 2]) (close_frame 3)
        [of_Z 1; nan; of_Z 2]
      /\ returned_series (compute_returns sample_libm_log (close_frame 3) false
                            (close_world [of_Z 1; nan; of_Z 2]))
         = inr (df_index (close_frame 3), [of_Z 1; zero; of_Z 1])
      /\ sub (div nan (of_Z 1)) one = nan
      /\ sub (div (of_Z 2) nan) one = nan).
Proof.
  split; split.
  - exists 0. repeat split; reflexivity.
  - vm_compute. reflexivity.
  - exists 0. repeat split; reflexivity.
  - split; [vm_compute; reflexivity|]. split; reflexivity.
Qed.

(** C3, amended: the line [plot_cummulative_returns] draws starts at
    [return[0] + 1], and its entry at [i + 1] is the entry at [i] times
    [return[i+1] + 1] whenever [return[i] + 1] is not NaN.  For
    [Close = [100; 110; 99]] in simple mode the returns are [[1; r1; r2]] and
    the line is [[2; c1; c2]] with [r1], [r2], [c1], [c2] within [1e-15] of
    0.1, -0.1, 2.2 and 1.98. *)
Theorem C3_cumulative_returns_compound_and_example :
  (forall libm_log w data close lg tick,
     PriceSeries w data close ->
     (lg = false -> close <> []) ->
     current_ok w ->
     exists returns cumret,
       returned_series (compute_returns libm_log data lg w)
       = inr (df_index data, returns)
       /\ returned_line (plot_cummulative_returns libm_log data tick lg false w)
          = Some (df_index data, cumret)
       /\ length cumret = length returns
       /\ (forall r0, returns !! 0 = Some r0 -> cumret !! 0 = Some (add r0 one))
       /\ (forall i p x cp,
             returns !! i = Some p -> isnan (add p one) = false ->
             returns !! S i = Some x -> cumret !! i = Some cp ->
             cumret !! S i = Some (mul cp (add x one))))
  /\ (forall libm_log tick,
        let close := [of_Z 100; of_Z 110; of_Z 99] in
        let w := close_world close in
        let data := close_frame 3 in
        exists r1 r2 c1 c2,
          returned_series (compute_returns libm_log data false w)
          = inr (df_index data, [of_Z 1; r1; r2])
          /\ returned_line (plot_cummulative_returns libm_log data tick false false w)
             = Some (df_index data, [of_Z 2; c1; c2])
          /\ close_to tolerance (1 # 10) r1 = true
          /\ close_to tolerance (- 1 # 10) r2 = true
          /\ close_to tolerance (22 # 10) c1 = true
          /\ close_to tolerance (198 # 100) c2 = true).
Proof.
  split.
  - intros libm_log w data close lg tick HP Hne Hok.
    exists (returns_values libm_log lg close),
           (cumulative_values (returns_values libm_log lg close)).
    split_and!.
    + by apply returned_series_compute_returns.
    + by apply returned_line_plot.
    + apply length_cumulative_values.
    + apply lookup_cumulative_values_0.
    + apply lookup_cumulative_values_S.
  - intros libm_log tick. cbv zeta.
    exists (S754_finite false 7205759403792800 (-56)),
           (S754_finite true 7205759403792792 (-56)),
           (S754_finite false 4953959590107546 (-51)),
           (S754_finite false 8917127262193583 (-52)).
    split_and!; try (vm_compute; reflexivity).
Qed.

(** C3 in logarithmic mode at [Close = [100; 110; 99]]. *)
Lemma C3_witness :
  let close := [of_Z 100; of_Z 110; of_Z 99] in
  PriceSeries (close_world close) (close_frame 3) close
  /\ current_ok (close_world close)
  /\ exists returns cumret,
       returned_series (compute_returns sample_libm_log (close_frame 3) true
                          (close_world close))
       = inr (df_index (close_frame 3), returns)
       /\ returned_line (plot_cummulative_returns sample_libm_log (close_frame 3)
                           "AAPL" true false (close_world close))
          = Some (df_index (close_frame 3), cumret)
       /\ length cumret = length returns
       /\ (forall r0, returns !! 0 = Some r0 -> cumret !! 0 = Some (add r0 one))
       /\ (forall i p x cp,
             returns !! i = Some p -> isnan (add p one) = false ->
             returns !! S i = Some x -> cumret !! i = Some cp ->
             cumret !! S i = Some (mul cp (add x one))).
Proof.
  cbv zeta. split; [exists 0; repeat split; reflexivity|].
  split; [exact I|].
  apply (proj1 C3_cumulative_returns_compound_and_example sample_libm_log
           (close_world [of_Z 100; of_Z 110; of_Z 99]) (close_frame 3)
           [of_Z 100; of_Z 110; of_Z 99] true "AAPL").
  - exists 0. repeat split; reflexivity.
  - discriminate.
  - exact I.
Defined.

(** C3 as stated fails: on [Close = [0; 0; 5]] the returns are
    [[1; NaN; inf]] and the line is [[2; NaN; inf]], where the recurrence asks
    for [NaN * (inf + 1) = NaN] at index 2 ([cumprod] skips the NaN).  And for
    [Close = [100; 110; 99]] the floats are not the literals 0.1, -0.1, 1.98. *)
Lemma C3_counterexample :
  let close := [of_Z 0; of_Z 0; of_Z 5] in
  (PriceSeries (close_world close) (close_frame 3) close
   /\ returned_series (compute_returns sample_libm_log (close_frame 3) false
                         (close_world close))
      = inr (df_index (close_frame 3), [of_Z 1; nan; inf])
   /\ returned_line (plot_cummulative_returns sample_libm_log (close_frame 3)
                       "" false false (close_world close))
      = Some (df_index (close_frame 3), [of_Z 2; nan; inf])
   /\ mul nan (add inf one) = nan
   /\ inf <> nan)
  /\ (returned_series (compute_returns sample_libm_log (close_frame 3) false
                         (close_world [of_Z 100; of_Z 110; of_Z 99]))
      <> inr (df_index (close_frame 3),
              [of_Z 1; div (of_Z 1) (of_Z 10); div (of_Z (-1)) (of_Z 10)])
      /\ returned_line (plot_cummulative_returns sample_libm_log (close_frame 3)
                          "" false false (close_world [of_Z 100; of_Z 110; of_Z 99]))
         <> Some (df_index (close_frame 3),
                  [of_Z 2; div (of_Z 22) (of_Z 10); div (of_Z 198) (of_Z 100)])).
Proof.
  cbv zeta. split.
  - split; [exists 0; repeat split; reflexivity|].
    split; [vm_compute; reflexivity|]. split; [vm_compute; reflexivity|].
    split; [reflexivity | discriminate].
  - split; vm_compute; discriminate.
Qed.

(** C4: every call of [download_stock] that returns a frame returns one
    whose columns are [Open; Low; Close; High; Volume] in this order, each a
    one-level label, with no [Adj Close] and no axis names; its index is the
    index of the provider's answer; that answer had six columns, of which
    the fifth, fourth, second, third and sixth are the values returned (the
    first, renamed [Adj Close], is left out). *)
Theorem C4_fetcher_returns_the_five_columns_in_order
    provider stock date_start date_end w w' df :
  download_stock provider stock date_start date_end w = (w', inr df) ->
  (fst <$> df_columns df) = [["Open"]; ["Low"]; ["Close"]; ["High"]; ["Volume"]]
  /\ (["Adj Close"] ∉ (fst <$> df_columns df))
  /\ df_index_name df = None
  /\ df_columns_names df = [None]
  /\ exists response,
       provider stock date_start date_end = inr response
       /\ length (r_columns response) = 6
       /\ df_index df = r_index response
       /\ frame_contents w' df
          = [(["Open"], snd <$> r_columns response !! 4);
             (["Low"], snd <$> r_columns response !! 3);
             (["Close"], snd <$> r_columns response !! 1);
             (["High"], snd <$> r_columns response !! 2);
             (["Volume"], snd <$> r_columns response !! 5)].
Proof.
  intros H.
  apply download_stock_contents in H
    as (r & Hr & Hlen & Hidx & Hin & Hcn & Hcols & Hdata).
  split_and!; [exact Hcols | | done | done | by exists r].
  unfold label, loc in *. rewrite Hcols. intros Hin'.
  repeat (apply elem_of_cons in Hin' as [?|Hin']; [done|]).
  by apply elem_of_nil in Hin'.
Qed.

(** C4 with the default arguments and the sample provider. *)
Lemma C4_witness :
  exists w' df,
    download_stock sample_provider default_stock default_date_start
      default_date_end empty_world = (w', inr df)
    /\ (fst <$> df_columns df) = [["Open"]; ["Low"]; ["Close"]; ["High"]; ["Volume"]]
    /\ (["Adj Close"] ∉ (fst <$> df_columns df))
    /\ df_index_name df = None
    /\ df_columns_names df = [None]
    /\ exists response,
         sample_provider default_stock default_date_start default_date_end
         = inr response
         /\ length (r_columns response) = 6
         /\ df_index df = r_index response
         /\ frame_contents w' df
            = [(["Open"], snd <$> r_columns response !! 4);
               (["Low"], snd <$> r_columns response !! 3);
               (["Close"], snd <$> r_columns response !! 1);
               (["High"], snd <$> r_columns response !! 2);
               (["Volume"], snd <$> r_columns response !! 5)].
Proof.
  eexists _, _. split; [vm_compute; reflexivity|].
  eapply (C4_fetcher_returns_the_five_columns_in_order sample_provider
            default_stock default_date_start default_date_end empty_world).
  vm_compute. reflexivity.
Defined.

(** C5, amended: on a symbol list that is not empty, [download_stock] emits
    the log line [Download data from <first symbol>] and then one request
    that carries the whole list and the two dates; nothing else is emitted.
    So two lists with the same first symbol give the same log line, and the
    same request only when they are the same list. *)
Theorem C5_log_names_the_first_symbol_request_carries_the_list
    provider tick rest date_start date_end w :
  emitted w (download_stock provider (tick :: rest) date_start date_end w)
  = [LogInfo (String.append "Download data from " tick);
     Request (tick :: rest) date_start date_end].
Proof.
  unfold emitted. rewrite download_stock_trace. by rewrite drop_app_length.
Qed.

(** C5 as stated fails: [["AAPL"]] and [["AAPL"; "MSFT"]] have the same
    first symbol; the requests differ, and with a provider that answers six
    columns per symbol the first call returns a frame and the second raises
    [ValueError]. *)
Lemma C5_counterexample :
  let one_symbol :=
    download_stock sample_provider default_stock default_date_start
      default_date_end empty_world in
  let two_symbols :=
    download_stock sample_provider ["AAPL"; "MSFT"] default_date_start
      default_date_end empty_world in
  emitted empty_world one_symbol
  = [LogInfo "Download data from AAPL";
     Request ["AAPL"] default_date_start default_date_end]
  /\ emitted empty_world two_symbols
     = [LogInfo "Download data from AAPL";
        Request ["AAPL"; "MSFT"] default_date_start default_date_end]
  /\ (exists df, outcome one_symbol = inr df)
  /\ outcome two_symbols = inl ValueError.
Proof.
  cbv zeta. split; [vm_compute; reflexivity|]. split; [vm_compute; reflexivity|].
  split; [eexists; vm_compute; reflexivity | vm_compute; reflexivity].
Qed.

(** C6, amended: a zero close at position [i + 1] does not make either mode
    raise.  In simple mode the return there is -1 when [Close[i]] is neither
    zero nor NaN, and NaN when [Close[i]] is zero as well.  In logarithmic
    mode the return there is +inf or NaN, and the next one, where the series
    has one, is -inf or NaN: neither is finite. *)
Theorem C6_zero_close_is_propagated libm_log w data close i a z :
  PriceSeries w data close ->
  close !! i = Some a ->
  close !! S i = Some z ->
  iszero z = true ->
  (exists returns,
     returned_series (compute_returns libm_log data false w)
     = inr (df_index data, returns)
     /\ (iszero a = false -> isnan a = false ->
         returns !! S i = Some (of_Z (-1)))
     /\ (iszero a = true -> returns !! S i = Some nan))
  /\ (exists returns x,
        returned_series (compute_returns libm_log data true w)
        = inr (df_index data, returns)
        /\ returns !! S i = Some x
        /\ (x = inf \/ x = nan)
        /\ forall next, close !! S (S i) = Some next ->
             exists y, returns !! S (S i) = Some y
                       /\ (y = neg_inf \/ y = nan)).
Proof.
  intros HP Ha Hz Z0.
  assert (Nz : isnan z = false) by (by destruct z).
  assert (Hne : close <> []) by (intros ->; done).
  split.
  - exists (simple_returns close). split_and!.
    + by apply (returned_series_compute_returns libm_log w data close false).
    + intros Za Na.
      rewrite (lookup_simple_returns_S _ _ _ _ Ha Hz Na Nz). f_equal.
      apply sub_zero_one. by apply zero_div_nonzero.
    + intros Za.
      assert (Na : isnan a = false) by (by destruct a).
      rewrite (lookup_simple_returns_S _ _ _ _ Ha Hz Na Nz). f_equal.
      destruct z; try done. by destruct a.
  - exists (log_returns libm_log close), (log libm_log (div a z)). split_and!.
    + by apply (returned_series_compute_returns libm_log w data close true).
    + by apply lookup_log_returns_S.
    + by apply log_div_by_zero.
    + intros next Hn. exists (log libm_log (div z next)). split.
      * by apply lookup_log_returns_S.
      * by apply log_zero_div.
Qed.

(** C6 at [Close = [100; 0]]. *)
Lemma C6_witness :
  let close := [of_Z 100; of_Z 0] in
  PriceSeries (close_world close) (close_frame 2) close
  /\ (exists returns,
        returned_series (compute_returns sample_libm_log (close_frame 2) false
                           (close_world close))
        = inr (df_index (close_frame 2), returns)
        /\ (iszero (of_Z 100) = false -> isnan (of_Z 100) = false ->
            returns !! 1 = Some (of_Z (-1)))
        /\ (iszero (of_Z 100) = true -> returns !! 1 = Some nan))
  /\ (exists returns x,
        returned_series (compute_returns sample_libm_log (close_frame 2) true
                           (close_world close))
        = inr (df_index (close_frame 2), returns)
        /\ returns !! 1 = Some x
        /\ (x = inf \/ x = nan)
        /\ forall next, close !! 2 = Some next ->
             exists y, returns !! 2 = Some y /\ (y = neg_inf \/ y = nan)).
Proof.
  cbv zeta. split; [exists 0; repeat split; reflexivity|].
  apply (C6_zero_close_is_propagated sample_libm_log
           (close_world [of_Z 100; of_Z 0]) (close_frame 2)
           [of_Z 100; of_Z 0] 0 (of_Z 100) (of_Z 0)).
  - exists 0. repeat split; reflexivity.
  - reflexivity.
  - reflexivity.
  - reflexivity.
Defined.

(** C6 as stated fails in simple mode: on [Close = [0; 0]] and on
    [Close = [NaN; 0]] the return at index 1 is NaN, not -1. *)
Lemma C6_counterexample :
  (PriceSeries (close_world [of_Z 0; of_Z 0]) (close_frame 2) [of_Z 0; of_Z 0]
   /\ returned_series (compute_returns sample_libm_log (close_frame 2) false
                         (close_world [of_Z 0; of_Z 0]))
      = inr (df_index (close_frame 2), [of_Z 1; nan])
   /\ nan <> of_Z (-1))
  /\ (PriceSeries (close_world [nan; of_Z 0]) (close_frame 2) [nan; of_Z 0]
      /\ returned_series (compute_returns sample_libm_log (close_frame 2) false
                            (close_world [nan; of_Z 0]))
         = inr (df_index (close_frame 2), [of_Z 1; nan])).
Proof.
  split.
  - split; [exists 0; repeat split; reflexivity|].
    split; [vm_compute; reflexivity | discriminate].
  - split; [exists 0; repeat split; reflexivity | vm_compute; reflexivity].
Qed.

(** C7, amended: in logarithmic mode the returns of every Price Series have
    the index and the length of the input, and their first entry is -inf when
    [Close[0]] is neither zero nor NaN.  In simple mode the same holds for
    every Price Series that is not empty, with first entry 1. *)
Theorem C7_returns_have_the_length_and_index_of_the_input libm_log w data close :
  PriceSeries w data close ->
  (exists returns,
     returned_series (compute_returns libm_log data true w)
     = inr (df_index data, returns)
     /\ length returns = length close
     /\ length returns = length (df_index data)
     /\ forall c, close !! 0 = Some c -> iszero c = false -> isnan c = false ->
                  returns !! 0 = Some neg_inf)
  /\ (close <> [] ->
      exists returns,
        returned_series (compute_returns libm_log data false w)
        = inr (df_index data, returns)
        /\ length returns = length close
        /\ length returns = length (df_index data)
        /\ returns !! 0 = Some one).
Proof.
  intros HP.
  assert (Hlen : length close = length (df_index data))
    by (by destruct HP as (l & _ & _ & H)).
  split.
  - exists (log_returns libm_log close). split_and!.
    + by apply (returned_series_compute_returns libm_log w data close true).
    + apply length_log_returns.
    + by rewrite length_log_returns.
    + intros c Hc Zc Nc. rewrite (lookup_log_returns_0 _ _ _ Hc). f_equal.
      apply log_zero. by apply div_zero_nonzero.
  - intros Hne. exists (simple_returns close). split_and!.
    + by apply (returned_series_compute_returns libm_log w data close false).
    + apply length_simple_returns.
    + by rewrite length_simple_returns.
    + by apply lookup_simple_returns_0.
Qed.

(** C7 at [Close = [100; 110; 99]]. *)
Lemma C7_witness :
  let close := [of_Z 100; of_Z 110; of_Z 99] in
  PriceSeries (close_world close) (close_frame 3) close
  /\ (exists returns,
        returned_series (compute_returns sample_libm_log (close_frame 3) true
                           (close_world close))
        = inr (df_index (close_frame 3), returns)
        /\ length returns = length close
        /\ length returns = length (df_index (close_frame 3))
        /\ forall c, close !! 0 = Some c -> iszero c = false -> isnan c = false ->
                     returns !! 0 = Some neg_inf)
  /\ (close <> [] ->
      exists returns,
        returned_series (compute_returns sample_libm_log (close_frame 3) false
                           (close_world close))
        = inr (df_index (close_frame 3), returns)
        /\ length returns = length close
        /\ length returns = length (df_index (close_frame 3))
        /\ returns !! 0 = Some one).
Proof.
  cbv zeta. split; [exists 0; repeat split; reflexivity|].
  apply (C7_returns_have_the_length_and_index_of_the_input sample_libm_log
           (close_world [of_Z 100; of_Z 110; of_Z 99]) (close_frame 3)
           [of_Z 100; of_Z 110; of_Z 99]).
  exists 0. repeat split; reflexivity.
Defined.

(** C7 as stated fails: in simple mode the empty Price Series raises
    [IndexError]; in logarithmic mode [Close = [0]] gives a NaN first entry. *)
Lemma C7_counterexample :
  (PriceSeries (close_world []) (close_frame 0) []
   /\ outcome (compute_returns sample_libm_log (close_frame 0) false (close_world []))
      = inl IndexError)
  /\ (PriceSeries (close_world [of_Z 0]) (close_frame 1) [of_Z 0]
      /\ returned_series (compute_returns sample_libm_log (close_frame 1) true
                            (close_world [of_Z 0]))
         = inr (df_index (close_frame 1), [nan])).
Proof.
  split.
  - split; [exists 0; repeat split; reflexivity | vm_compute; reflexivity].
  - split; [exists 0; repeat split; reflexivity | vm_compute; reflexivity].
Qed.

(** C8: when the returns can be computed, [plot_cummulative_returns] with
    [show = False] returns the Axes that holds the cumulative line and the
    title, and displays nothing; with [show = True] it displays that same
    figure and returns [None]. *)
Theorem C8_show_flag_chooses_between_display_and_return
    libm_log w data close tick lg :
  PriceSeries w data close ->
  (lg = false -> close <> []) ->
  current_ok w ->
  exists ax,
    last (ax_lines ax)
    = Some (df_index data, cumulative_values (returns_values libm_log lg close))
    /\ ax_title ax = String.append tick " - Daily Cummulative Returns"
    /\ (exists w' a,
          plot_cummulative_returns libm_log data tick lg false w = (w', inr (Some a))
          /\ w_axes w' !! a = Some ax
          /\ emitted w (w', inr (Some a) : exn + option axref) = [])
    /\ (exists w',
          plot_cummulative_returns libm_log data tick lg true w = (w', inr None)
          /\ emitted w (w', inr None : exn + option axref) = [Shown [ax]]).
Proof.
  intros HP Hne Hok.
  destruct (compute_returns_returned libm_log _ _ _ _ HP Hne)
    as (h1 & s & Hrun & Hi & Hs).
  rewrite !(plot_cummulative_returns_run _ _ _ _ _ _ _ _ _ Hrun Hs).
  unfold plot_outcome, emitted, current_ok in *. cbn. rewrite Hi.
  destruct (w_current w) as [a0|] eqn:Hcur; cbn.
  - destruct (lookup_lt_is_Some_2 _ _ Hok) as [ax0 Hax0].
    exists (cumulative_axes ax0 (df_index data)
              (cumulative_values (returns_values libm_log lg close)) tick).
    split; [cbn; by rewrite last_snoc|]. split; [done|]. split.
    + eexists _, _. split; [reflexivity|]. cbn.
      rewrite list_lookup_alter_eq, Hax0. split; [done|]. by rewrite drop_all.
    + eexists. split; [reflexivity|]. cbn.
      rewrite list_lookup_alter_eq, Hax0. cbn. by rewrite drop_app_length.
  - exists (cumulative_axes empty_axes (df_index data)
              (cumulative_values (returns_values libm_log lg close)) tick).
    split; [done|]. split; [done|]. split.
    + eexists _, _. split; [reflexivity|]. cbn.
      rewrite list_lookup_alter_eq, list_lookup_middle by done.
      split; [done|]. by rewrite drop_all.
    + eexists. split; [reflexivity|]. cbn.
      rewrite list_lookup_alter_eq, list_lookup_middle by done.
      cbn. by rewrite drop_app_length.
Qed.

(** C8 at [Close = [100; 110; 99]] in simple mode. *)
Lemma C8_witness :
  let close := [of_Z 100; of_Z 110; of_Z 99] in
  let w := close_world close in
  let data := close_frame 3 in
  PriceSeries w data close
  /\ exists ax,
       last (ax_lines ax)
       = Some (df_index data,
               cumulative_values (returns_values sample_libm_log false close))
       /\ ax_title ax = String.append "AAPL" " - Daily Cummulative Returns"
       /\ (exists w' a,
             plot_cummulative_returns sample_libm_log data "AAPL" false false w
             = (w', inr (Some a))
             /\ w_axes w' !! a = Some ax
             /\ emitted w (w', inr (Some a) : exn + option axref) = [])
       /\ (exists w',
             plot_cummulative_returns sample_libm_log data "AAPL" false true w
             = (w', inr None)
             /\ emitted w (w', inr None : exn + option axref) = [Shown [ax]]).
Proof.
  cbv zeta. split; [exists 0; repeat split; reflexivity|].
  apply (C8_show_flag_chooses_between_display_and_return sample_libm_log
           (close_world [of_Z 100; of_Z 110; of_Z 99]) (close_frame 3)
           [of_Z 100; of_Z 110; of_Z 99] "AAPL" false).
  - exists 0. repeat split; reflexivity.
  - discriminate.
  - exact I.
Defined.

(** C9: neither [compute_returns] nor [plot_cummulative_returns] changes
    the input frame: every column holds the same values after the call,
    whether the call returns or raises, because both only add buffers to
    the heap (the write [returns[0] = 1] goes to a buffer the call made). *)
Theorem C9_input_frame_is_not_mutated libm_log w data tick lg show :
  allocated w data ->
  let after_returns := fst (compute_returns libm_log data lg w) in
  let after_plot := fst (plot_cummulative_returns libm_log data tick lg show w) in
  frame_contents after_returns data = frame_contents w data
  /\ frame_contents after_plot data = frame_contents w data
  /\ (exists fresh, w_heap after_returns = w_heap w ++ fresh)
  /\ (exists fresh, w_heap after_plot = w_heap w ++ fresh).
Proof.
  intros Hall. cbv zeta.
  pose proof (compute_returns_extends libm_log data lg w) as H1.
  pose proof (plot_cummulative_returns_extends libm_log data tick lg show w) as H2.
  split_and!; [by apply extends_frame_contents | by apply extends_frame_contents
              | exact H1 | exact H2].
Qed.

(** C9 at [Close = [100; 110; 99]]. *)
Lemma C9_witness :
  let close := [of_Z 100; of_Z 110; of_Z 99] in
  let w := close_world close in
  let data := close_frame 3 in
  allocated w data
  /\ frame_contents (fst (compute_returns sample_libm_log data false w)) data
     = [(["Close"], Some close)]
  /\ frame_contents (fst (compute_returns sample_libm_log data false w)) data
     = frame_contents w data
  /\ frame_contents (fst (plot_cummulative_returns sample_libm_log data "AAPL"
                            false true w)) data
     = frame_contents w data
  /\ (exists fresh,
        w_heap (fst (compute_returns sample_libm_log data false w))
        = w_heap w ++ fresh)
  /\ (exists fresh,
        w_heap (fst (plot_cummulative_returns sample_libm_log data "AAPL"
                       false true w))
        = w_heap w ++ fresh).
Proof.
  cbv zeta.
  split; [repeat constructor|]. split; [vm_compute; reflexivity|].
  apply (C9_input_frame_is_not_mutated sample_libm_log
           (close_world [of_Z 100; of_Z 110; of_Z 99]) (close_frame 3)
           "AAPL" false true).
  repeat constructor.
Defined.

(** C10: in logarithmic mode, for every Price Series whose first close is
    positive, the return at index 0 is [log (0 / Close[0])], which is -inf,
    and no entry of the cumulative line drawn from these returns is finite. *)
Theorem C10_log_mode_starts_at_minus_infinity libm_log w data close c0 tick :
  PriceSeries w data close ->
  current_ok w ->
  close !! 0 = Some c0 ->
  ispositive c0 = true ->
  exists returns cumret,
    returned_series (compute_returns libm_log data true w)
    = inr (df_index data, returns)
    /\ returns !! 0 = Some (log libm_log (div zero c0))
    /\ log libm_log (div zero c0) = neg_inf
    /\ returned_line (plot_cummulative_returns libm_log data tick true false w)
       = Some (df_index data, cumret)
    /\ length cumret = length close
    /\ Forall (fun x => isfinite x = false) cumret.
Proof.
  intros HP Hok Hc Hpos.
  assert (Hlog : log libm_log (div zero c0) = neg_inf)
    by (by rewrite div_zero_positive).
  exists (log_returns libm_log close), (cumulative_values (log_returns libm_log close)).
  split_and!.
  - by apply (returned_series_compute_returns libm_log w data close true).
  - by apply lookup_log_returns_0.
  - exact Hlog.
  - by apply (returned_line_plot libm_log w data close true).
  - by rewrite length_cumulative_values, length_log_returns.
  - apply Forall_lookup. intros i x Hx.
    pose proof (lookup_log_returns_0 libm_log _ _ Hc) as H0. rewrite Hlog in H0.
    unfold cumulative_values in Hx.
    destruct (log_returns libm_log close) as [|r0 rest]; [done|].
    injection H0 as ->. cbn in Hx.
    by apply (cumprod_values_nonfinite true _ _ _ Hx).
Qed.

(** C10 at [Close = [100; 110; 99]]. *)
Lemma C10_witness :
  let close := [of_Z 100; of_Z 110; of_Z 99] in
  let w := close_world close in
  let data := close_frame 3 in
  PriceSeries w data close
  /\ ispositive (of_Z 100) = true
  /\ exists returns cumret,
       returned_series (compute_returns sample_libm_log data true w)
       = inr (df_index data, returns)
       /\ returns !! 0 = Some (log sample_libm_log (div zero (of_Z 100)))
       /\ log sample_libm_log (div zero (of_Z 100)) = neg_inf
       /\ returned_line (plot_cummulative_returns sample_libm_log data "AAPL"
                           true false w)
          = Some (df_index data, cumret)
       /\ length cumret = length close
       /\ Forall (fun x => isfinite x = false) cumret.
Proof.
  cbv zeta. split; [exists 0; repeat split; reflexivity|].
  split; [reflexivity|].
  apply (C10_log_mode_starts_at_minus_infinity sample_libm_log
           (close_world [of_Z 100; of_Z 110; of_Z 99]) (close_frame 3)
           [of_Z 100; of_Z 110; of_Z 99] (of_Z 100) "AAPL").
  - exists 0. repeat split; reflexivity.
  - exact I.
  - reflexivity.
  - reflexivity.
Defined.

(* ===================================================================== *)
(** ** [plot_candlestick] *)
(* ===================================================================== *)

Lemma lift_run {A} (m : M A) pw w' r :
  m (p_world pw) = (w', r) -> lift m pw = (mkPworld w' (p_shown pw), r).
Proof. intros H. unfold lift. by rewrite H. Qed.

Lemma plot_candlestick_run pw data o c l h tick currency :
  OHLC (p_world pw) data o c l h ->
  plot_candlestick data tick currency pw
  = (mkPworld (p_world pw)
       (p_shown pw ++ [candlestick_figure (df_index data) o c l h tick currency]),
     inr tt).
Proof.
  intros (lo & lc & ll & lh & Ho & Hc & Hl & Hh & Vo & Vc & Vl & Vh).
  unfold plot_candlestick, DataFrame_getitem. rewrite Ho, Hc, Hl, Hh.
  unfold pbind, lift, ret. cbn -[String.append div of_Z].
  unfold go_Candlestick, bind. cbn -[String.append div of_Z].
  rewrite (load_run _ _ _ Vo), (load_run _ _ _ Vc), (load_run _ _ _ Vl),
    (load_run _ _ _ Vh).
  unfold ret. cbn -[String.append div of_Z]. destruct pw. reflexivity.
Qed.

Lemma plot_candlestick_KeyError pw data tick currency name :
  name ∈ ["Open"; "Close"; "Low"; "High"] ->
  find_column [name] (df_columns data) = None ->
  plot_candlestick data tick currency pw = (pw, inl KeyError).
Proof.
  intros Hin Hnone. unfold plot_candlestick, DataFrame_getitem, pbind, lift.
  repeat (apply elem_of_cons in Hin as [->|Hin];
          [ rewrite Hnone;
            repeat match goal with
                   | |- context [find_column ?n ?c] =>
                       destruct (find_column n c); cbn
                   end; by destruct pw | ]).
  by apply elem_of_nil in Hin.
Qed.

(* ===================================================================== *)
(** ** How [download_stock] fails *)
(* ===================================================================== *)

Lemma download_stock_after_request provider tick rest date_start date_end w :
  download_stock provider (tick :: rest) date_start date_end w
  = let w1 := mkWorld (w_heap w) (w_axes w) (w_current w)
                (w_trace w ++ [LogInfo (String.append "Download data from " tick);
                               Request (tick :: rest) date_start date_end]) in
    match provider (tick :: rest) date_start date_end with
    | inl e => (w1, inl e)
    | inr r =>
        (let* df := ret (mkDataFrame (r_index r) (Some "Date")
                          (zip (fst <$> r_columns r)
                               (seq (length (w_heap w)) (length (r_columns r))))
                          [Some "Attributes"; Some "Symbols"]) in
         let* columns := get_level_values df 1 in
         let* df := set_columns df columns in
         let df := set_columns_name df None in
         let df := set_index_name df None in
         let* df := set_columns df
                      (Index_of_list ["Adj Close"; "Close"; "High"; "Low"; "Open"; "Volume"]) in
         let* df := DataFrame_select df ["Open"; "Low"; "Close"; "High"; "Volume"] in
         ret df)
          (set_heap (w_heap w ++ (snd <$> r_columns r)) w1)
    end.
Proof.
  unfold download_stock.
  change (list_getitem (tick :: rest) 0) with (ret (A := string) tick).
  unfold bind at 1. unfold ret at 1.
  unfold logger_info, bind at 1. unfold emit at 1.
  unfold bind at 1. unfold get_data_yahoo. unfold bind at 1. unfold emit at 1.
  cbn [w_heap w_axes w_current w_trace]. rewrite <- app_assoc. cbn [app].
  destruct (provider (tick :: rest) date_start date_end) as [e|r]; [done|].
  unfold bind at 1. rewrite alloc_columns_run. cbn [w_heap].
  unfold bind at 3. unfold ret at 2. reflexivity.
Qed.

Lemma two_level_mapM r :
  two_level r <-> is_Some (mapM (fun l : label => l !! 1) (fst <$> r_columns r)).
Proof. unfold two_level. by rewrite mapM_is_Some, Forall_fmap. Qed.

Lemma download_stock_wrong_shape provider tick rest date_start date_end w r :
  provider (tick :: rest) date_start date_end = inr r ->
  (~ two_level r ->
   outcome (download_stock provider (tick :: rest) date_start date_end w)
   = inl IndexError)
  /\ (two_level r -> length (r_columns r) <> 6 ->
      outcome (download_stock provider (tick :: rest) date_start date_end w)
      = inl ValueError).
Proof.
  intros Hr. rewrite download_stock_after_request, Hr. cbv zeta.
  set (df0 := mkDataFrame _ _ _ _).
  assert (Hlen0 : length (df_columns df0) = length (r_columns r))
    by (subst df0; cbn; rewrite length_zip, length_fmap, length_seq; lia).
  assert (Hfst : fst <$> df_columns df0 = fst <$> r_columns r)
    by (subst df0; cbn; apply fst_zip; by rewrite length_fmap, length_seq).
  clearbody df0.
  split.
  - intros Hno. rewrite two_level_mapM in Hno.
    unfold bind at 1. unfold ret at 1.
    unfold bind at 1. unfold get_level_values. rewrite Hfst.
    destruct (mapM _ _) as [labels|]; [by destruct Hno | done].
  - intros Htwo Hlen. rewrite two_level_mapM in Htwo.
    unfold bind at 1. unfold ret at 1.
    unfold bind at 1. unfold get_level_values. rewrite Hfst.
    destruct (mapM _ _) as [labels|] eqn:Hm; [|by destruct Htwo].
    apply length_mapM in Hm. rewrite length_fmap in Hm.
    unfold ret at 1. unfold bind at 1. unfold set_columns at 1.
    cbn [i_labels]. rewrite Hlen0.
    destruct (decide (length labels = length (r_columns r))) as [_|]; [|done].
    unfold ret at 1. unfold bind at 1. unfold set_columns at 1.
    cbn [i_labels df_columns set_columns_name set_index_name Index_of_list length].
    rewrite length_zip_with, Hlen0.
    destruct (decide _) as [E|]; [lia | done].
Qed.

(* ===================================================================== *)
(** ** Every outcome of [compute_returns] *)
(* ===================================================================== *)

Section Outcomes.
Variable libm_log : positive -> Z -> float64.

Lemma compute_returns_cases data lg w :
  compute_returns libm_log data lg w
  = match find_column ["Close"] (df_columns data) with
    | None => (w, inl KeyError)
    | Some l =>
        match w_heap w !! l with
        | None => (w, inl DanglingRef)
        | Some close =>
            if lg
            then (set_heap (w_heap w ++ [shift_values 1 zero close;
                                        zip_with div (shift_values 1 zero close) close;
                                        log_returns libm_log close]) w,
                  inr (mkSeries (df_index data) (length (w_heap w) + 2)))
            else match close with
                 | [] => (set_heap (w_heap w ++ [[]]) w, inl IndexError)
                 | _ => (set_heap (w_heap w ++ [simple_returns close]) w,
                         inr (mkSeries (df_index data) (length (w_heap w))))
                 end
        end
    end.
Proof.
  destruct (find_column ["Close"] (df_columns data)) as [l|] eqn:Hl.
  2:{ unfold compute_returns, DataFrame_getitem. by rewrite Hl. }
  destruct (w_heap w !! l) as [close|] eqn:Hv.
  2:{ unfold compute_returns, DataFrame_getitem. rewrite Hl.
      unfold bind at 1. unfold ret at 1. destruct lg.
      - unfold Series_shift, bind, load. cbn. by rewrite Hv.
      - unfold Series_pct_change, bind, load. cbn. by rewrite Hv. }
  set (data' := mkDataFrame (replicate (length close) 0%Z) None
                  (df_columns data) []).
  assert (HP : PriceSeries w data' close).
  { exists l. split_and!; [done | done |]. cbn. by rewrite length_replicate. }
  assert (E : compute_returns libm_log data lg w
              = match compute_returns libm_log data' lg w with
                | (w1, inr s) => (w1, inr (mkSeries (df_index data) (s_data s)))
                | (w1, inl e) => (w1, inl e)
                end).
  { unfold compute_returns, DataFrame_getitem. cbn [df_columns data'].
    rewrite Hl. unfold bind at 1 3. unfold ret at 1 2. destruct lg.
    - unfold Series_shift, Series_truediv, np_log, new_series, bind, ret, alloc.
      cbn. rewrite (load_run _ _ _ Hv). cbn.
      erewrite !load_run by (cbn; by apply heap_lookup_new). cbn.
      erewrite !load_run by (cbn; by apply heap_lookup_old).
      cbn. erewrite !load_run by (cbn; by apply heap_lookup_new). reflexivity.
    - unfold Series_pct_change, Series_setitem, new_series, bind, ret, alloc.
      cbn. rewrite (load_run _ _ _ Hv). cbn. unfold store. cbn.
      rewrite heap_lookup_new by done.
      destruct (decide _); reflexivity. }
  rewrite E. destruct lg.
  - by rewrite (compute_returns_log_run _ _ _ _ HP).
  - rewrite (compute_returns_simple_run _ _ _ _ HP). by destruct close.
Qed.

End Outcomes.

Lemma sub_nonfinite x : isfinite x = false -> isfinite (sub x one) = false.
Proof. by destruct x as [|[]| |]. Qed.

Lemma log_div_zero_nonfinite libm_log c :
  log libm_log (div zero c) = neg_inf \/ log libm_log (div zero c) = nan.
Proof. destruct c as [|[]| |]; cbn; auto. Qed.

Lemma lookup_pad_from_S last v i z n :
  v !! i = Some z -> isnan z = false -> v !! S i = Some n ->
  pad_from last v !! S i = Some (if isnan n then z else n).
Proof.
  revert last i. induction v as [|y r IH]; intros last i Hz Nz Hn; [done|].
  destruct i as [|i]; cbn in Hz, Hn.
  - injection Hz as ->. cbn. rewrite Nz. destruct r as [|n' r']; [done|].
    cbn in Hn. injection Hn as ->. cbn. by destruct (isnan n).
  - cbn. destruct (isnan y); cbn; by apply IH.
Qed.

Lemma PriceSeries_extends w w' data close :
  extends w w' -> PriceSeries w data close -> PriceSeries w' data close.
Proof.
  intros [fresh Hh] (l & Hl & Hv & Hlen). exists l. split_and!; [done | | done].
  rewrite Hh. by apply lookup_app_l_Some.
Qed.

(* ===================================================================== *)
(** ** The frame [download_stock] returns *)
(* ===================================================================== *)

Lemma find_column_selected (a b c d e : loc) :
  let cols := [(["Open"], a); (["Low"], b); (["Close"], c); (["High"], d);
               (["Volume"], e)] in
  find_column ["Open"] cols = Some a
  /\ find_column ["Low"] cols = Some b
  /\ find_column ["Close"] cols = Some c
  /\ find_column ["High"] cols = Some d
  /\ find_column ["Volume"] cols = Some e.
Proof. repeat split; vm_compute; reflexivity. Qed.

Lemma heap_lookup_fresh (h fresh : heap) k :
  (h ++ fresh) !! (length h + k) = fresh !! k.
Proof.
  rewrite lookup_app_r by lia. f_equal. lia.
Qed.

Lemma download_stock_frame provider stock date_start date_end w w' df :
  download_stock provider stock date_start date_end w = (w', inr df) ->
  exists r c0 c1 c2 c3 c4 c5,
    provider stock date_start date_end = inr r
    /\ r_columns r = [c0; c1; c2; c3; c4; c5]
    /\ w_heap w' = w_heap w ++ [snd c0; snd c1; snd c2; snd c3; snd c4; snd c5;
                                snd c4; snd c3; snd c1; snd c2; snd c5]
    /\ w_axes w' = w_axes w
    /\ w_current w' = w_current w
    /\ df = mkDataFrame (r_index r) None
              [(["Open"], length (w_heap w) + 6); (["Low"], length (w_heap w) + 7);
               (["Close"], length (w_heap w) + 8); (["High"], length (w_heap w) + 9);
               (["Volume"], length (w_heap w) + 10)]
              [None].
Proof.
  intros H.
  destruct (download_stock_inr _ _ _ _ _ _ _ H) as (tick & r & Ht & Hr & Hlen & Hlev).
  destruct (r_columns r) as [|c0 [|c1 [|c2 [|c3 [|c4 [|c5 [|]]]]]]] eqn:Hc;
    try done.
  rewrite <- Hc in Hlev.
  rewrite (download_stock_run _ _ _ _ _ _ _ _ _ _ _ _ _ Ht Hr Hc Hlev) in H.
  injection H as <- <-. by exists r, c0, c1, c2, c3, c4, c5.
Qed.

Lemma download_stock_OHLC provider stock date_start date_end w w' df :
  download_stock provider stock date_start date_end w = (w', inr df) ->
  exists r o c l h,
    provider stock date_start date_end = inr r
    /\ df_index df = r_index r
    /\ snd <$> r_columns r !! 4 = Some o
    /\ snd <$> r_columns r !! 1 = Some c
    /\ snd <$> r_columns r !! 3 = Some l
    /\ snd <$> r_columns r !! 2 = Some h
    /\ OHLC w' df o c l h.
Proof.
  intros H.
  destruct (download_stock_frame _ _ _ _ _ _ _ H)
    as (r & c0 & c1 & c2 & c3 & c4 & c5 & Hr & Hc & Hh & _ & _ & ->).
  exists r, (snd c4), (snd c1), (snd c3), (snd c2). rewrite Hc.
  split_and!; try done.
  cbn [df_columns].
  destruct (find_column_selected (length (w_heap w) + 6) (length (w_heap w) + 7)
              (length (w_heap w) + 8) (length (w_heap w) + 9)
              (length (w_heap w) + 10)) as (Ho & Hl & Hcl & Hhi & _).
  eexists _, _, _, _.
  split; [exact Ho|]. split; [exact Hcl|]. split; [exact Hl|]. split; [exact Hhi|].
  rewrite Hh, !heap_lookup_fresh. done.
Qed.

(* ===================================================================== *)
(** ** Further properties of [download_stock] *)
(* ===================================================================== *)

(** X1: [download_stock] returns a frame exactly when the symbol list is not
    empty and the provider answers with six columns whose labels have at
    least two levels. *)
Theorem download_stock_returns_iff provider stock date_start date_end w :
  (exists w' df, download_stock provider stock date_start date_end w = (w', inr df))
  <-> (exists tick r,
         stock !! 0 = Some tick
         /\ provider stock date_start date_end = inr r
         /\ length (r_columns r) = 6
         /\ two_level r).
Proof.
  split.
  - intros (w' & df & H). by apply download_stock_inr in H.
  - intros (tick & r & Ht & Hr & Hlen & Hlev).
    destruct (r_columns r) as [|c0 [|c1 [|c2 [|c3 [|c4 [|c5 [|]]]]]]] eqn:Hc;
      try done.
    unfold two_level in Hlev.
    eexists _, _.
    by apply (download_stock_run provider stock tick date_start date_end w r
                c0 c1 c2 c3 c4 c5).
Qed.

(** X2: with an empty symbol list [download_stock] raises [IndexError] and
    leaves the world as it was: nothing is logged and no request is issued.
    When the provider raises, the call raises the same exception, after the
    log line and the request, and allocates nothing. *)
Theorem download_stock_fails_before_data provider date_start date_end w :
  download_stock provider [] date_start date_end w = (w, inl IndexError)
  /\ forall tick rest e,
       provider (tick :: rest) date_start date_end = inl e ->
       download_stock provider (tick :: rest) date_start date_end w
       = (mkWorld (w_heap w) (w_axes w) (w_current w)
            (w_trace w ++ [LogInfo (String.append "Download data from " tick);
                           Request (tick :: rest) date_start date_end]),
          inl e).
Proof.
  split; [reflexivity|]. intros tick rest e He.
  by rewrite download_stock_after_request, He.
Qed.

(** X2 with a provider that cannot be reached. *)
Lemma download_stock_fails_before_data_witness :
  failing_provider default_stock default_date_start default_date_end
  = inl RemoteDataError
  /\ download_stock failing_provider default_stock default_date_start
       default_date_end empty_world
     = (mkWorld [] [] None
          [LogInfo "Download data from AAPL";
           Request ["AAPL"] default_date_start default_date_end],
        inl RemoteDataError).
Proof.
  split; [reflexivity|].
  apply (proj2 (download_stock_fails_before_data failing_provider
                  default_date_start default_date_end empty_world)
               "AAPL" [] RemoteDataError).
  reflexivity.
Defined.

(** X3: when the provider answers with column labels of fewer than two
    levels, [download_stock] raises [IndexError]; when the labels have two
    levels and the columns are not six, it raises [ValueError]. *)
Theorem download_stock_rejects_other_shapes
    provider tick rest date_start date_end w r :
  provider (tick :: rest) date_start date_end = inr r ->
  (~ two_level r ->
   outcome (download_stock provider (tick :: rest) date_start date_end w)
   = inl IndexError)
  /\ (two_level r -> length (r_columns r) <> 6 ->
      outcome (download_stock provider (tick :: rest) date_start date_end w)
      = inl ValueError).
Proof.
  intros Hr.
  destruct (download_stock_wrong_shape provider tick rest date_start date_end
              w r Hr) as [Hflat Hcount].
  by split.
Qed.

(** X3 with one-level labels, and with two symbols. *)
Lemma download_stock_rejects_other_shapes_witness :
  (exists r, flat_provider ["AAPL"] default_date_start default_date_end = inr r
             /\ ~ two_level r)
  /\ outcome (download_stock flat_provider ["AAPL"] default_date_start
                default_date_end empty_world)
     = inl IndexError
  /\ (exists r, sample_provider ["AAPL"; "MSFT"] default_date_start
                  default_date_end = inr r
                /\ two_level r /\ length (r_columns r) <> 6)
  /\ outcome (download_stock sample_provider ["AAPL"; "MSFT"] default_date_start
                default_date_end empty_world)
     = inl ValueError.
Proof.
  assert (Hflat : ~ two_level
                    (mkResponse [default_date_start; default_date_end]
                       ((fun a => ([a], [of_Z 100; of_Z 110])) <$> sample_attributes))).
  { intros H. apply Forall_inv in H. by destruct H. }
  assert (Htwo : two_level
                   (mkResponse [default_date_start; default_date_end]
                      (a ← sample_attributes; s ← ["AAPL"; "MSFT"];
                       [([a; s], [of_Z 100; of_Z 110])]))).
  { unfold two_level. cbn. repeat (constructor; [by eexists|]). constructor. }
  split; [eexists; split; [reflexivity | exact Hflat]|].
  split.
  - apply (proj1 (download_stock_rejects_other_shapes flat_provider "AAPL" []
                    default_date_start default_date_end empty_world _ eq_refl)).
    exact Hflat.
  - split; [eexists; split; [reflexivity|]; split; [exact Htwo | cbn; lia]|].
    apply (proj2 (download_stock_rejects_other_shapes sample_provider "AAPL"
                    ["MSFT"] default_date_start default_date_end empty_world _
                    eq_refl)).
    + exact Htwo.
    + cbn. lia.
Defined.


(* ===================================================================== *)
(** ** Further properties of [compute_returns] and [plot_cummulative_returns] *)
(* ===================================================================== *)

(** X4: on a frame without a [Close] column both [compute_returns] and
    [plot_cummulative_returns] raise [KeyError] and leave the world as it
    was: no buffer is made, nothing is drawn or shown. *)
Theorem returns_need_a_Close_column libm_log data tick lg show w :
  find_column ["Close"] (df_columns data) = None ->
  compute_returns libm_log data lg w = (w, inl KeyError)
  /\ plot_cummulative_returns libm_log data tick lg show w = (w, inl KeyError).
Proof.
  intros Hnone.
  assert (H : compute_returns libm_log data lg w = (w, inl KeyError))
    by (by rewrite compute_returns_cases, Hnone).
  split; [exact H|]. unfold plot_cummulative_returns, bind. by rewrite H.
Qed.

(** X4 on the frame of the examples, with its [Close] column renamed. *)
Lemma returns_need_a_Close_column_witness :
  let data := mkDataFrame [0%Z; 1%Z] None [(["Adj Close"], 0)] [None] in
  let w := close_world [of_Z 100; of_Z 110] in
  find_column ["Close"] (df_columns data) = None
  /\ compute_returns sample_libm_log data false w = (w, inl KeyError)
  /\ plot_cummulative_returns sample_libm_log data "AAPL" false true w
     = (w, inl KeyError).
Proof.
  cbv zeta. split; [reflexivity|].
  apply (returns_need_a_Close_column sample_libm_log
           (mkDataFrame [0%Z; 1%Z] None [(["Adj Close"], 0)] [None])
           "AAPL" false true (close_world [of_Z 100; of_Z 110])).
  reflexivity.
Defined.

(** X5: in simple mode, on an empty Price Series, [plot_cummulative_returns]
    raises [IndexError] whatever [show] is; no Axes is made or changed and
    nothing is displayed. *)
Theorem plot_of_an_empty_series_raises libm_log data tick show w :
  PriceSeries w data [] ->
  exists w',
    plot_cummulative_returns libm_log data tick false show w = (w', inl IndexError)
    /\ w_axes w' = w_axes w
    /\ w_current w' = w_current w
    /\ w_trace w' = w_trace w.
Proof.
  intros HP. eexists. unfold plot_cummulative_returns, bind.
  rewrite (compute_returns_simple_run _ _ _ _ HP). done.
Qed.

(** X5 on the empty frame. *)
Lemma plot_of_an_empty_series_raises_witness :
  PriceSeries (close_world []) (close_frame 0) []
  /\ exists w',
       plot_cummulative_returns sample_libm_log (close_frame 0) "AAPL" false true
         (close_world [])
       = (w', inl IndexError)
       /\ w_axes w' = w_axes (close_world [])
       /\ w_current w' = w_current (close_world [])
       /\ w_trace w' = w_trace (close_world []).
Proof.
  split; [exists 0; repeat split; reflexivity|].
  apply (plot_of_an_empty_series_raises sample_libm_log (close_frame 0) "AAPL"
           true (close_world [])).
  exists 0. repeat split; reflexivity.
Defined.

(** X6: [compute_returns] logs nothing, requests nothing and touches no
    figure; and the Series it returns is on a buffer of its own, so a later
    write to that Series, at any position, leaves every column of the input
    frame as it was. *)
Theorem returned_series_is_independent_of_the_frame
    libm_log data lg w w1 s i x :
  allocated w data ->
  compute_returns libm_log data lg w = (w1, inr s) ->
  w_axes w1 = w_axes w
  /\ w_current w1 = w_current w
  /\ w_trace w1 = w_trace w
  /\ length (w_heap w) <= s_data s < length (w_heap w1)
  /\ frame_contents (fst (Series_setitem s i x w1)) data = frame_contents w data.
Proof.
  intros Hall Hrun. rewrite compute_returns_cases in Hrun.
  destruct (find_column ["Close"] (df_columns data)) as [l|]; [|done].
  destruct (w_heap w !! l) as [close|]; [|done].
  assert (Hshape : exists fresh,
             w1 = set_heap (w_heap w ++ fresh) w
             /\ length (w_heap w) <= s_data s < length (w_heap w ++ fresh)).
  { destruct lg.
    - injection Hrun as <- <-. eexists. split; [reflexivity|].
      rewrite length_app. cbn. lia.
    - destruct close; [done|]. injection Hrun as <- <-.
      eexists. split; [reflexivity|]. rewrite length_app. cbn. lia. }
  destruct Hshape as (fresh & -> & Hs). clear Hrun.
  cbn [w_axes w_current w_trace w_heap set_heap].
  split; [done|]. split; [done|]. split; [done|]. split; [exact Hs|].
  unfold frame_contents. apply list_fmap_ext. intros k c Hc. f_equal.
  assert (Hlt : snd c < length (w_heap w)).
  { unfold allocated in Hall. rewrite Forall_lookup in Hall. by eapply Hall. }
  unfold Series_setitem, store. cbn [w_heap set_heap].
  destruct ((w_heap w ++ fresh) !! s_data s) as [v|]; cbn;
    [destruct (decide _); cbn|].
  - rewrite list_lookup_insert_ne by lia. by apply lookup_app_l.
  - by apply lookup_app_l.
  - by apply lookup_app_l.
Qed.

(** X6 at [Close = [100; 110; 99]], writing 0 over the first return. *)
Lemma returned_series_is_independent_of_the_frame_witness :
  let close := [of_Z 100; of_Z 110; of_Z 99] in
  let w := close_world close in
  let data := close_frame 3 in
  exists w1 s,
    allocated w data
    /\ compute_returns sample_libm_log data false w = (w1, inr s)
    /\ w_axes w1 = w_axes w
    /\ w_current w1 = w_current w
    /\ w_trace w1 = w_trace w
    /\ length (w_heap w) <= s_data s < length (w_heap w1)
    /\ frame_contents (fst (Series_setitem s 0 zero w1)) data
       = frame_contents w data.
Proof.
  cbv zeta. eexists _, _.
  split; [repeat constructor|]. split; [vm_compute; reflexivity|].
  apply (returned_series_is_independent_of_the_frame sample_libm_log
           (close_frame 3) false (close_world [of_Z 100; of_Z 110; of_Z 99])).
  - repeat constructor.
  - vm_compute. reflexivity.
Defined.

(** X7: in simple mode the cumulative line of every Price Series that is
    not empty starts at 2: the first return is the constant 1, and the line
    starts at the first return plus one. *)
Theorem simple_cumulative_returns_start_at_two libm_log w data close tick :
  PriceSeries w data close ->
  close <> [] ->
  current_ok w ->
  exists cumret,
    returned_line (plot_cummulative_returns libm_log data tick false false w)
    = Some (df_index data, cumret)
    /\ cumret !! 0 = Some (of_Z 2).
Proof.
  intros HP Hne Hok. eexists. split.
  - by apply (returned_line_plot libm_log w data close false).
  - cbn [returns_values].
    by rewrite (lookup_cumulative_values_0 _ one) by (by apply lookup_simple_returns_0).
Qed.

(** X7 at [Close = [100; 110; 99]]. *)
Lemma simple_cumulative_returns_start_at_two_witness :
  let close := [of_Z 100; of_Z 110; of_Z 99] in
  PriceSeries (close_world close) (close_frame 3) close
  /\ exists cumret,
       returned_line (plot_cummulative_returns sample_libm_log (close_frame 3)
                        "AAPL" false false (close_world close))
       = Some (df_index (close_frame 3), cumret)
       /\ cumret !! 0 = Some (of_Z 2).
Proof.
  cbv zeta. split; [exists 0; repeat split; reflexivity|].
  apply (simple_cumulative_returns_start_at_two sample_libm_log
           (close_world [of_Z 100; of_Z 110; of_Z 99]) (close_frame 3)
           [of_Z 100; of_Z 110; of_Z 99] "AAPL").
  - exists 0. repeat split; reflexivity.
  - discriminate.
  - exact I.
Defined.

(** X8: in logarithmic mode the first return of every Price Series that is
    not empty is -inf or NaN, whatever the first close is: it is never a
    finite number. *)
Theorem first_log_return_is_never_finite libm_log w data close :
  PriceSeries w data close ->
  close <> [] ->
  exists returns first,
    returned_series (compute_returns libm_log data true w)
    = inr (df_index data, returns)
    /\ returns !! 0 = Some first
    /\ (first = neg_inf \/ first = nan)
    /\ isfinite first = false.
Proof.
  intros HP Hne. destruct close as [|c rest] eqn:Hc; [done|]. rewrite <- Hc in *.
  exists (log_returns libm_log close), (log libm_log (div zero c)). split_and!.
  - by apply (returned_series_compute_returns libm_log w data close true).
  - apply lookup_log_returns_0. by rewrite Hc.
  - apply log_div_zero_nonfinite.
  - by destruct (log_div_zero_nonfinite libm_log c) as [-> | ->].
Qed.

(** X8 at [Close = [100; 110]]. *)
Lemma first_log_return_is_never_finite_witness :
  let close := [of_Z 100; of_Z 110] in
  PriceSeries (close_world close) (close_frame 2) close
  /\ exists returns first,
       returned_series (compute_returns sample_libm_log (close_frame 2) true
                          (close_world close))
       = inr (df_index (close_frame 2), returns)
       /\ returns !! 0 = Some first
       /\ (first = neg_inf \/ first = nan)
       /\ isfinite first = false.
Proof.
  cbv zeta. split; [exists 0; repeat split; reflexivity|].
  apply (first_log_return_is_never_finite sample_libm_log
           (close_world [of_Z 100; of_Z 110]) (close_frame 2)
           [of_Z 100; of_Z 110]).
  - exists 0. repeat split; reflexivity.
  - discriminate.
Defined.

(** X9: in simple mode a zero close makes the next return not finite (inf or
    NaN), also when the next close is missing: the missing close is padded
    with the zero. *)
Theorem simple_return_after_a_zero_close_is_not_finite
    libm_log w data close i z next :
  PriceSeries w data close ->
  close !! i = Some z ->
  iszero z = true ->
  close !! S i = Some next ->
  exists returns x,
    returned_series (compute_returns libm_log data false w)
    = inr (df_index data, returns)
    /\ returns !! S i = Some x
    /\ isfinite x = false.
Proof.
  intros HP Hz Z0 Hn.
  assert (Nz : isnan z = false) by (by destruct z).
  assert (Hne : close <> []) by (intros ->; done).
  exists (simple_returns close),
         (sub (div (if isnan next then z else next) z) one).
  split_and!.
  - by apply (returned_series_compute_returns libm_log w data close false).
  - unfold simple_returns. rewrite list_lookup_insert_ne by done.
    unfold pct_change_values, pad. rewrite lookup_zip_with.
    rewrite lookup_shift_values_S
      by (rewrite length_pad_from; by eapply lookup_lt_Some).
    rewrite (lookup_pad_from_S _ _ _ _ _ Hz Nz Hn).
    by rewrite (lookup_pad_from _ _ _ _ Hz Nz).
  - apply sub_nonfinite. by apply div_by_zero_nonfinite.
Qed.

(** X9 at [Close = [0; NaN]]. *)
Lemma simple_return_after_a_zero_close_is_not_finite_witness :
  let close := [of_Z 0; nan] in
  PriceSeries (close_world close) (close_frame 2) close
  /\ exists returns x,
       returned_series (compute_returns sample_libm_log (close_frame 2) false
                          (close_world close))
       = inr (df_index (close_frame 2), returns)
       /\ returns !! 1 = Some x
       /\ isfinite x = false.
Proof.
  cbv zeta. split; [exists 0; repeat split; reflexivity|].
  apply (simple_return_after_a_zero_close_is_not_finite sample_libm_log
           (close_world [of_Z 0; nan]) (close_frame 2) [of_Z 0; nan] 0
           (of_Z 0) nan).
  - exists 0. repeat split; reflexivity.
  - reflexivity.
  - reflexivity.
  - reflexivity.
Defined.

(** X10: two calls of [plot_cummulative_returns] with [show = False], one
    after the other, return the same Axes: the second line is drawn over the
    first, under the title of the second call. *)
Theorem plots_without_show_share_one_axes
    libm_log w data1 close1 lg1 tick1 data2 close2 lg2 tick2 :
  PriceSeries w data1 close1 -> (lg1 = false -> close1 <> []) ->
  PriceSeries w data2 close2 -> (lg2 = false -> close2 <> []) ->
  current_ok w ->
  exists w1 w2 a ax earlier,
    plot_cummulative_returns libm_log data1 tick1 lg1 false w = (w1, inr (Some a))
    /\ plot_cummulative_returns libm_log data2 tick2 lg2 false w1
       = (w2, inr (Some a))
    /\ w_axes w2 !! a = Some ax
    /\ ax_lines ax
       = earlier
         ++ [(df_index data1, cumulative_values (returns_values libm_log lg1 close1));
             (df_index data2, cumulative_values (returns_values libm_log lg2 close2))]
    /\ ax_title ax = String.append tick2 " - Daily Cummulative Returns".
Proof.
  intros HP1 Hne1 HP2 Hne2 Hok.
  pose proof (plot_cummulative_returns_extends libm_log data1 tick1 lg1 false w)
    as Hext.
  destruct (compute_returns_returned libm_log _ _ _ _ HP1 Hne1)
    as (h1 & s1 & Hrun1 & Hi1 & Hs1).
  rewrite (plot_cummulative_returns_run _ _ _ _ _ _ _ _ _ Hrun1 Hs1) in Hext |- *.
  rewrite Hi1 in *.
  set (line1 := (df_index data1,
                 cumulative_values (returns_values libm_log lg1 close1))).
  assert (Hfirst : exists axes1 a ax0,
    plot_outcome w h1 (df_index data1) (returns_values libm_log lg1 close1)
      tick1 false
    = (mkWorld (h1 ++ [(fun x => add x one) <$> returns_values libm_log lg1 close1;
                       cumulative_values (returns_values libm_log lg1 close1)])
         axes1 (Some a) (w_trace w), inr (Some a))
    /\ axes1 !! a = Some (cumulative_axes ax0 (fst line1) (snd line1) tick1)).
  { unfold plot_outcome, current_ok in *. cbn.
    destruct (w_current w) as [a0|]; cbn.
    - destruct (lookup_lt_is_Some_2 _ _ Hok) as [ax0 Hax0].
      eexists _, a0, ax0. split; [reflexivity|].
      by rewrite list_lookup_alter_eq, Hax0.
    - eexists _, (length (w_axes w)), empty_axes. split; [reflexivity|].
      by rewrite list_lookup_alter_eq, list_lookup_middle. }
  destruct Hfirst as (axes1 & a & ax0 & Hout1 & Hax1).
  rewrite Hout1 in Hext |- *.
  set (w1 := mkWorld _ axes1 (Some a) (w_trace w)) in *.
  cbn [fst] in Hext.
  pose proof (PriceSeries_extends _ _ _ _ Hext HP2) as HP2'.
  destruct (compute_returns_returned libm_log _ _ _ _ HP2' Hne2)
    as (h2 & s2 & Hrun2 & Hi2 & Hs2).
  eexists w1, _, a, _, (ax_lines ax0). split; [reflexivity|].
  rewrite (plot_cummulative_returns_run _ _ _ _ _ _ _ _ _ Hrun2 Hs2).
  rewrite Hi2. unfold plot_outcome. cbn [w_current w1 default from_option w_axes].
  split; [reflexivity|]. cbn [w_axes]. unfold id.
  rewrite list_lookup_alter_eq. unfold axref in *. rewrite Hax1. cbn.
  split; [reflexivity|]. split; [|reflexivity].
  cbn. by rewrite <- app_assoc.
Qed.

(** X10 at [Close = [100; 110; 99]], drawn in simple and then in logarithmic
    mode. *)
Lemma plots_without_show_share_one_axes_witness :
  let close := [of_Z 100; of_Z 110; of_Z 99] in
  let w := close_world close in
  let data := close_frame 3 in
  PriceSeries w data close
  /\ exists w1 w2 a ax earlier,
       plot_cummulative_returns sample_libm_log data "simple" false false w
       = (w1, inr (Some a))
       /\ plot_cummulative_returns sample_libm_log data "log" true false w1
          = (w2, inr (Some a))
       /\ w_axes w2 !! a = Some ax
       /\ ax_lines ax
          = earlier
            ++ [(df_index data,
                 cumulative_values (returns_values sample_libm_log false close));
                (df_index data,
                 cumulative_values (returns_values sample_libm_log true close))]
       /\ ax_title ax = String.append "log" " - Daily Cummulative Returns".
Proof.
  cbv zeta. split; [exists 0; repeat split; reflexivity|].
  apply (plots_without_show_share_one_axes sample_libm_log
           (close_world [of_Z 100; of_Z 110; of_Z 99])
           (close_frame 3) [of_Z 100; of_Z 110; of_Z 99] false "simple"
           (close_frame 3) [of_Z 100; of_Z 110; of_Z 99] true "log").
  - exists 0. repeat split; reflexivity.
  - discriminate.
  - exists 0. repeat split; reflexivity.
  - discriminate.
  - exact I.
Defined.

(** X11: [compute_returns] works on the frame [download_stock] returns, in
    the world it leaves: the returns are those of the second column of the
    provider's answer (the one the rename calls [Close], whatever the
    provider called it), on the provider's index.  In simple mode this needs
    one trading day at least; without any, the call raises [IndexError]. *)
Theorem returns_of_a_downloaded_frame
    libm_log provider stock date_start date_end w w' df lg :
  download_stock provider stock date_start date_end w = (w', inr df) ->
  exists r close,
    provider stock date_start date_end = inr r
    /\ snd <$> r_columns r !! 1 = Some close
    /\ ((lg = false -> close <> []) ->
        returned_series (compute_returns libm_log df lg w')
        = inr (r_index r, returns_values libm_log lg close))
    /\ (lg = false -> close = [] ->
        outcome (compute_returns libm_log df lg w') = inl IndexError).
Proof.
  intros H.
  destruct (download_stock_OHLC _ _ _ _ _ _ _ H)
    as (r & o & c & l & h & Hr & Hidx & _ & Hc & _ & _ & HO).
  destruct HO as (lo & lc & ll & lh & _ & Hfind & _ & _ & _ & Hv & _ & _).
  exists r, c. split; [done|]. split; [done|].
  rewrite compute_returns_cases, Hfind, Hv, Hidx. split.
  - intros Hne. destruct lg; cbn.
    + rewrite lookup_app_r by lia.
      by replace (length (w_heap w') + 2 - length (w_heap w')) with 2 by lia.
    + destruct c as [|c0 c']; [by destruct Hne|]. cbn.
      by rewrite list_lookup_middle.
  - by intros -> ->.
Qed.

(** X11 with the default arguments and the sample provider. *)
Lemma returns_of_a_downloaded_frame_witness :
  exists w' df,
    download_stock sample_provider default_stock default_date_start
      default_date_end empty_world = (w', inr df)
    /\ exists r close,
         sample_provider default_stock default_date_start default_date_end
         = inr r
         /\ snd <$> r_columns r !! 1 = Some close
         /\ ((false = false -> close <> []) ->
             returned_series (compute_returns sample_libm_log df false w')
             = inr (r_index r, returns_values sample_libm_log false close))
         /\ (false = false -> close = [] ->
             outcome (compute_returns sample_libm_log df false w')
             = inl IndexError).
Proof.
  eexists _, _. split; [vm_compute; reflexivity|].
  eapply (returns_of_a_downloaded_frame sample_libm_log sample_provider
            default_stock default_date_start default_date_end empty_world).
  vm_compute. reflexivity.
Defined.

(** X12: the frame [download_stock] returns shares no buffer with anything
    older: its five columns are on five different buffers, all made by the
    call; every buffer that existed keeps its contents, and no figure is
    touched. *)
Theorem downloaded_frame_is_on_fresh_buffers
    provider stock date_start date_end w w' df :
  download_stock provider stock date_start date_end w = (w', inr df) ->
  allocated w' df
  /\ NoDup (snd <$> df_columns df)
  /\ Forall (fun c : label * loc => length (w_heap w) <= snd c) (df_columns df)
  /\ (exists fresh, w_heap w' = w_heap w ++ fresh)
  /\ w_axes w' = w_axes w
  /\ w_current w' = w_current w.
Proof.
  intros H.
  destruct (download_stock_frame _ _ _ _ _ _ _ H)
    as (r & c0 & c1 & c2 & c3 & c4 & c5 & _ & _ & Hh & Ha & Hc & ->).
  split_and!; [ | | | by eexists | done | done].
  - unfold allocated. rewrite Hh, length_app. cbn.
    repeat (constructor; [cbn; lia|]). constructor.
  - cbn. repeat (constructor; [rewrite ?elem_of_cons, elem_of_nil; lia|]).
    constructor.
  - cbn. repeat (constructor; [cbn; lia|]). constructor.
Qed.

(** X12 with the default arguments and the sample provider. *)
Lemma downloaded_frame_is_on_fresh_buffers_witness :
  exists w' df,
    download_stock sample_provider default_stock default_date_start
      default_date_end empty_world = (w', inr df)
    /\ allocated w' df
    /\ NoDup (snd <$> df_columns df)
    /\ Forall (fun c : label * loc => length (w_heap empty_world) <= snd c)
         (df_columns df)
    /\ (exists fresh, w_heap w' = w_heap empty_world ++ fresh)
    /\ w_axes w' = w_axes empty_world
    /\ w_current w' = w_current empty_world.
Proof.
  eexists _, _. split; [vm_compute; reflexivity|].
  eapply (downloaded_frame_is_on_fresh_buffers sample_provider default_stock
            default_date_start default_date_end empty_world).
  vm_compute. reflexivity.
Defined.

(* ===================================================================== *)
(** ** Properties of [plot_candlestick] *)
(* ===================================================================== *)

(** X13: on a frame with the columns [Open], [Close], [Low] and [High],
    [plot_candlestick] displays exactly one figure and returns nothing.  The
    figure has one candlestick trace, on the index of the frame, with the
    values of these four columns; it is 800 wide and 400 high, titled
    [<tick> - Daily], with the y axis labelled with the currency and the
    range slider hidden.  No buffer is written or made, nothing is logged and
    no pyplot figure is touched; other columns play no part. *)
Theorem plot_candlestick_shows_one_figure pw data o c l h tick currency :
  OHLC (p_world pw) data o c l h ->
  exists fig,
    plot_candlestick data tick currency pw
    = (mkPworld (p_world pw) (p_shown pw ++ [fig]), inr tt)
    /\ fig_data fig = [mkCandlestick (df_index data) o c l h]
    /\ title_text (fig_layout fig) = String.append tick " - Daily"
    /\ yaxis_title_text (fig_layout fig)
       = String.append "Price per share in " currency
    /\ xaxis_rangeslider_visible (fig_layout fig) = false
    /\ layout_width (fig_layout fig) = 800%Z
    /\ layout_height (fig_layout fig) = 400%Z.
Proof.
  intros HO. exists (candlestick_figure (df_index data) o c l h tick currency).
  split; [by apply plot_candlestick_run|]. by repeat split.
Qed.

(** X13 on a frame of two days, in dollars. *)
Lemma plot_candlestick_shows_one_figure_witness :
  OHLC ohlc_world ohlc_frame [of_Z 10; of_Z 11] [of_Z 10; of_Z 12]
    [of_Z 9; of_Z 10] [of_Z 12; of_Z 13]
  /\ exists fig,
       plot_candlestick ohlc_frame "AAPL" "$" (mkPworld ohlc_world [])
       = (mkPworld ohlc_world ([] ++ [fig]), inr tt)
       /\ fig_data fig
          = [mkCandlestick (df_index ohlc_frame) [of_Z 10; of_Z 11]
               [of_Z 10; of_Z 12] [of_Z 9; of_Z 10] [of_Z 12; of_Z 13]]
       /\ title_text (fig_layout fig) = String.append "AAPL" " - Daily"
       /\ yaxis_title_text (fig_layout fig)
          = String.append "Price per share in " "$"
       /\ xaxis_rangeslider_visible (fig_layout fig) = false
       /\ layout_width (fig_layout fig) = 800%Z
       /\ layout_height (fig_layout fig) = 400%Z.
Proof.
  assert (HO : OHLC ohlc_world ohlc_frame [of_Z 10; of_Z 11] [of_Z 10; of_Z 12]
                 [of_Z 9; of_Z 10] [of_Z 12; of_Z 13])
    by (exists 0, 2, 1, 3; repeat split; reflexivity).
  split; [exact HO|].
  apply (plot_candlestick_shows_one_figure (mkPworld ohlc_world []) ohlc_frame
           _ _ _ _ "AAPL" "$" HO).
Defined.

(** X14: when one of the columns [Open], [Close], [Low], [High] is missing,
    [plot_candlestick] raises [KeyError] and displays nothing; the world is
    as it was. *)
Theorem plot_candlestick_needs_four_columns pw data tick currency name :
  name ∈ ["Open"; "Close"; "Low"; "High"] ->
  find_column [name] (df_columns data) = None ->
  plot_candlestick data tick currency pw = (pw, inl KeyError)
  /\ p_shown (fst (plot_candlestick data tick currency pw)) = p_shown pw.
Proof.
  intros Hin Hnone.
  rewrite (plot_candlestick_KeyError pw data tick currency name Hin Hnone).
  by split.
Qed.

(** X14 on a frame with a [Close] column only. *)
Lemma plot_candlestick_needs_four_columns_witness :
  let pw := mkPworld (close_world [of_Z 100; of_Z 110]) [] in
  "High" ∈ ["Open"; "Close"; "Low"; "High"]
  /\ find_column ["High"] (df_columns (close_frame 2)) = None
  /\ plot_candlestick (close_frame 2) "AAPL" "$" pw = (pw, inl KeyError)
  /\ p_shown (fst (plot_candlestick (close_frame 2) "AAPL" "$" pw)) = p_shown pw.
Proof.
  cbv zeta.
  assert (Hin : "High" ∈ ["Open"; "Close"; "Low"; "High"])
    by (rewrite !elem_of_cons; tauto).
  split; [exact Hin|]. split; [reflexivity|].
  apply (plot_candlestick_needs_four_columns
           (mkPworld (close_world [of_Z 100; of_Z 110]) []) (close_frame 2)
           "AAPL" "$" "High" Hin).
  reflexivity.
Defined.

(** X15: [plot_candlestick] works on the frame [download_stock] returns, in
    the world it leaves: the figure is on the provider's index and shows the
    fifth column of the provider's answer as open, the second as close, the
    fourth as low and the third as high. *)
Theorem candlesticks_of_a_downloaded_frame
    provider stock date_start date_end w w' df shown tick currency :
  download_stock provider stock date_start date_end w = (w', inr df) ->
  exists r o c l h,
    provider stock date_start date_end = inr r
    /\ snd <$> r_columns r !! 4 = Some o
    /\ snd <$> r_columns r !! 1 = Some c
    /\ snd <$> r_columns r !! 3 = Some l
    /\ snd <$> r_columns r !! 2 = Some h
    /\ plot_candlestick df tick currency (mkPworld w' shown)
       = (mkPworld w'
            (shown ++ [candlestick_figure (r_index r) o c l h tick currency]),
          inr tt).
Proof.
  intros H.
  destruct (download_stock_OHLC _ _ _ _ _ _ _ H)
    as (r & o & c & l & h & Hr & Hidx & Ho & Hc & Hl & Hh & HO).
  exists r, o, c, l, h. split_and!; try done.
  rewrite <- Hidx.
  by apply (plot_candlestick_run (mkPworld w' shown)).
Qed.

(** X15 with the default arguments and the sample provider. *)
Lemma candlesticks_of_a_downloaded_frame_witness :
  exists w' df,
    download_stock sample_provider default_stock default_date_start
      default_date_end empty_world = (w', inr df)
    /\ exists r o c l h,
         sample_provider default_stock default_date_start default_date_end
         = inr r
         /\ snd <$> r_columns r !! 4 = Some o
         /\ snd <$> r_columns r !! 1 = Some c
         /\ snd <$> r_columns r !! 3 = Some l
         /\ snd <$> r_columns r !! 2 = Some h
         /\ plot_candlestick df "AAPL" "$" (mkPworld w' [])
            = (mkPworld w'
                 ([] ++ [candlestick_figure (r_index r) o c l h "AAPL" "$"]),
               inr tt).
Proof.
  eexists _, _. split; [vm_compute; reflexivity|].
  eapply (candlesticks_of_a_downloaded_frame sample_provider default_stock
            default_date_start default_date_end empty_world).
  vm_compute. reflexivity.
Defined.
